(** * Archey: OS identification and ANSI-aware layout

    A shallow embedding of [archey.py]: the pyparsing grammar behind
    [ANSILen], the padding and truncation of lines, the merge of the logo with
    the collected lines, the collectors that fill [result], and [IdentifyOS]. *)

From Stdlib Require Import ZArith NArith Ascii String Lia DecimalString.
From stdpp Require Import base option list gmap.

Local Open Scope Z_scope.

(** ** Python strings

    A Python [str] is a sequence of Unicode code points and [len] counts
    code points, so a character is its code point. *)

Abbreviation char := N.
Abbreviation str := (list N).

(** A literal of the source, written in ASCII. *)
Definition py (s : string) : str := N_of_ascii <$> list_ascii_of_string s.

(** [len(s)], a Python [int]. *)
Definition len {A} (l : list A) : Z := Z.of_nat (length l).

Definition SPACE : char := 32%N.

(** [s.ljust(width)]: [s] itself when it is already [width] long, otherwise
    [s] followed by spaces up to [width]. *)
Definition ljust (s : str) (width : Z) : str :=
  s ++ replicate (Z.to_nat (width - len s)) SPACE.

(** [s[:stop]] for a Python [int]: a negative [stop] counts from the end. *)
Definition slice_to {A} (l : list A) (stop : Z) : list A :=
  if 0 <=? stop then take (Z.to_nat stop) l
  else take (Z.to_nat (len l + stop)) l.

(** [s[start:]] for a literal [start >= 0]. *)
Definition slice_from {A} (l : list A) (start : nat) : list A := drop start l.

(** [sep.join(parts)]. *)
Fixpoint join (sep : str) (parts : list str) : str :=
  match parts with
  | [] => []
  | [p] => p
  | p :: rest => p ++ sep ++ join sep rest
  end.

(** [needle in haystack]. *)
Fixpoint startswith (needle s : str) : bool :=
  match needle, s with
  | [], _ => true
  | _ :: _, [] => false
  | a :: needle', b :: s' => (a =? b)%N && startswith needle' s'
  end.

Fixpoint contains (needle s : str) : bool :=
  startswith needle s ||
  match s with
  | [] => false
  | _ :: s' => contains needle s'
  end.

(** ** The pyparsing fragment used by [ANSILen]

    A parse element is run at a location of the input and either fails or
    returns the location after the match; here the input from the location on
    goes in and the input after the match comes out.  [Suppress] drops the
    tokens, which are not represented.  pyparsing elements skip leading
    white space by default; [Combine] (with its default [adjacent=True]) turns
    that off for itself and for everything inside it, and [Suppress] takes the
    setting over, so no element below skips anything. *)

Module Pyparsing.

Definition parser : Type := str -> option str.

(** [nums] and [alphas]. *)
Definition nums (c : char) : bool := ((48 <=? c) && (c <=? 57))%N.
Definition alphas (c : char) : bool :=
  (((65 <=? c) && (c <=? 90)) || ((97 <=? c) && (c <=? 122)))%N.

#[global] Arguments nums : simpl never.
#[global] Arguments alphas : simpl never.

(** [Literal(c)] for a one-character literal. *)
Definition Literal (c : char) : parser := fun s =>
  match s with
  | x :: r => if (x =? c)%N then Some r else None
  | [] => None
  end.

(** [oneOf(list(chars))]. *)
Definition oneOf (chars : char -> bool) : parser := fun s =>
  match s with
  | x :: r => if chars x then Some r else None
  | [] => None
  end.

(** [Word(chars)]: one or more characters of the set, as many as there are. *)
Fixpoint skip_while (chars : char -> bool) (s : str) : str :=
  match s with
  | x :: r => if chars x then skip_while chars r else s
  | [] => []
  end.

Definition Word (chars : char -> bool) : parser := fun s =>
  match s with
  | x :: r => if chars x then Some (skip_while chars r) else None
  | [] => None
  end.

(** [p + q]. *)
Definition And (p q : parser) : parser := fun s =>
  match p s with
  | Some r => q r
  | None => None
  end.

(** [Optional(p)]. *)
Definition Optional (p : parser) : parser := fun s =>
  match p s with
  | Some r => Some r
  | None => Some s
  end.

(** [ZeroOrMore(p)]: repeat [p] until it fails.  Every round that matters
    consumes input, so the input length bounds the number of rounds. *)
Fixpoint ZeroOrMore_loop (rounds : nat) (p : parser) (s : str) : option str :=
  match rounds with
  | O => Some s
  | S n =>
      match p s with
      | Some r => ZeroOrMore_loop n p r
      | None => Some s
      end
  end.

Definition ZeroOrMore (p : parser) : parser := fun s =>
  ZeroOrMore_loop (S (length s)) p s.

(** [delimitedList(expr, delim)] is [expr + ZeroOrMore(Suppress(delim) + expr)]. *)
Definition delimitedList (expr : parser) (delim : char) : parser :=
  And expr (ZeroOrMore (And (Literal delim) expr)).

(** [Combine(p)] joins the tokens of [p] and requires them adjacent. *)
Definition Combine (p : parser) : parser := p.

(** [Suppress(p).transformString(s)]: scan [s] from the left; where [p]
    matches and consumes something the match is left out and the scan goes on
    after it, elsewhere the character is kept and the scan moves one on. *)
Fixpoint scan (rounds : nat) (p : parser) (s : str) : str :=
  match rounds with
  | O => s
  | S n =>
      match s with
      | [] => []
      | c :: t =>
          match p s with
          | Some r =>
              if (length r <? length s)%nat then scan n p r
              else c :: scan n p t
          | None => c :: scan n p t
          end
      end
  end.

Definition transformString_Suppress (p : parser) (s : str) : str :=
  scan (S (length s)) p s.

End Pyparsing.

Import Pyparsing.

(** ** [ANSILen] and [ANSIljust] *)

Definition ESC : char := 27%N.

Definition integer : parser := Word nums.

Definition escapeSeq : parser :=
  Combine (And (Literal ESC)
          (And (Literal 91%N)
          (And (Optional (delimitedList integer 59%N))
               (oneOf alphas)))).

Definition NonANSIString (ANSIString : str) : str :=
  transformString_Suppress escapeSeq ANSIString.

Definition ANSILen (ANSIString : str) : Z * Z :=
  (len (NonANSIString ANSIString),
   len ANSIString - len (NonANSIString ANSIString)).

Definition ANSIljust (ANSIString : str) (MinLength : Z) : str :=
  let ANSICount := snd (ANSILen ANSIString) in
  ljust ANSIString (MinLength + ANSICount).

(** The strings the spec speaks of: visible characters interleaved with
    colour or style escape sequences. *)
Inductive segment : Type :=
  | Visible (c : char)
  | Escape (params : list str) (final : char).

Definition render_segment (g : segment) : str :=
  match g with
  | Visible c => [c]
  | Escape params final => ESC :: 91%N :: join [59%N] params ++ [final]
  end.

Definition render (gs : list segment) : str := concat (render_segment <$> gs).

Definition valid_param (p : str) : bool :=
  match p with
  | [] => false
  | _ => forallb nums p
  end.

Definition valid_segment (g : segment) : bool :=
  match g with
  | Visible c => negb (c =? ESC)%N
  | Escape params final => forallb valid_param params && alphas final
  end.

Fixpoint visible_count (gs : list segment) : Z :=
  match gs with
  | [] => 0
  | Visible _ :: gs' => 1 + visible_count gs'
  | Escape _ _ :: gs' => visible_count gs'
  end.

Fixpoint escape_chars (gs : list segment) : Z :=
  match gs with
  | [] => 0
  | Visible _ :: gs' => escape_chars gs'
  | (Escape _ _ as g) :: gs' => len (render_segment g) + escape_chars gs'
  end.


Fixpoint visible_chars (gs : list segment) : str :=
  match gs with
  | [] => []
  | Visible c :: gs' => c :: visible_chars gs'
  | Escape _ _ :: gs' => visible_chars gs'
  end.

(** ** Predicates on parse elements

    Three facts about a parse element carry the proofs about [ANSILen]: a
    match leaves no more input than it got ([shrinking]), a match takes at
    least one character ([consuming]), and spaces appended to the input
    neither create nor change a match ([stable]). *)

Definition shrinking (p : parser) : Prop :=
  forall s r, p s = Some r -> (length r <= length s)%nat.

Definition consuming (p : parser) : Prop :=
  forall s r, p s = Some r -> (length r < length s)%nat.

Definition stable (p : parser) : Prop :=
  forall s k,
    p (s ++ replicate k SPACE) = (fun r => r ++ replicate k SPACE) <$> p s.

(** The input goes on with something that is not a digit. *)
Definition no_digit_ahead (s : str) : Prop :=
  match s with
  | [] => True
  | c :: _ => nums c = false
  end.


(** ** More of Python's [str] *)

Definition NEWLINE : char := 10%N.

(** [s.split(sep)] for a one-character separator: never an empty list. *)
Fixpoint split (s : str) (sep : char) : list str :=
  match s with
  | [] => [[]]
  | c :: t =>
      if (c =? sep)%N then [] :: split t sep
      else match split t sep with
           | h :: r => (c :: h) :: r
           | [] => [[c]]
           end
  end.

(** [s.find(sub, start)]: the lowest index at or after [start] where [sub]
    occurs, or [-1]. *)
Fixpoint find_in (sub s : str) : option nat :=
  if startswith sub s then Some O
  else match s with
       | [] => None
       | _ :: t => S <$> find_in sub t
       end.

Definition find (s sub : str) (start : Z) : Z :=
  let start := if start <? 0 then Z.max 0 (len s + start) else start in
  if len s <? start then -1
  else match find_in sub (drop (Z.to_nat start) s) with
       | Some i => start + Z.of_nat i
       | None => -1
       end.

Definition isascii (s : str) : bool := forallb (fun c => c <? 128)%N s.

Definition ascii_upper (c : char) : char :=
  if ((97 <=? c) && (c <=? 122))%N then (c - 32)%N else c.

Definition ascii_lower (c : char) : char :=
  if ((65 <=? c) && (c <=? 90))%N then (c + 32)%N else c.

(** [str(n)] for an [int]. *)
Definition str_of_int (n : Z) : str :=
  py (DecimalString.NilZero.string_of_int (Z.to_int n)).

(** ** Colours and the tables of the program *)

Definition esc (s : string) : str := ESC :: py s.

Definition clear : str := esc "[0m".
Definition redN : str := esc "[0;31m".
Definition redB : str := esc "[1;31m".
Definition redH : str := esc "[91m".
Definition greenN : str := esc "[0;32m".
Definition greenB : str := esc "[1;32m".
Definition greenH : str := esc "[92m".
Definition yellowN : str := esc "[0;33m".
Definition yellowB : str := esc "[1;33m".
Definition yellowH : str := esc "[93m".
Definition blueN : str := esc "[0;34m".
Definition blueB : str := esc "[1;34m".
Definition blueH : str := esc "[94m".
Definition magentaN : str := esc "[0;35m".
Definition magentaH : str := esc "[95m".
Definition cyanN : str := esc "[0;36m".
Definition cyanB : str := esc "[1;36m".
Definition cyanH : str := esc "[96m".
Definition whiteN : str := esc "[0;37m".
Definition whiteB : str := esc "[1;37m".

Inductive Distro : Type :=
  | Arch | BunsenLabs | CrunchBang | CentOS | Debian | Elementary | Fedora
  | FreeBSD | Kubuntu | Linuxmint | MacOS | Manjaro | ManjaroARM | Neon
  | PopOS | Raspbian | Ubuntu | Zorin | Unknown.

#[global] Instance Distro_eq_dec : EqDecision Distro.
Proof. solve_decision. Defined.

(** The value of a member, as [Enum] numbers them. *)
Definition Distro_value (d : Distro) : positive :=
  match d with
  | Arch => 1 | BunsenLabs => 2 | CrunchBang => 3 | CentOS => 4 | Debian => 5
  | Elementary => 6 | Fedora => 7 | FreeBSD => 8 | Kubuntu => 9
  | Linuxmint => 10 | MacOS => 11 | Manjaro => 12 | ManjaroARM => 13
  | Neon => 14 | PopOS => 15 | Raspbian => 16 | Ubuntu => 17 | Zorin => 18
  | Unknown => 19
  end%positive.

Definition Distro_of_value (p : positive) : option Distro :=
  match p with
  | 1 => Some Arch | 2 => Some BunsenLabs | 3 => Some CrunchBang
  | 4 => Some CentOS | 5 => Some Debian | 6 => Some Elementary
  | 7 => Some Fedora | 8 => Some FreeBSD | 9 => Some Kubuntu
  | 10 => Some Linuxmint | 11 => Some MacOS | 12 => Some Manjaro
  | 13 => Some ManjaroARM | 14 => Some Neon | 15 => Some PopOS
  | 16 => Some Raspbian | 17 => Some Ubuntu | 18 => Some Zorin
  | 19 => Some Unknown | _ => None
  end%positive.

#[global] Program Instance Distro_countable : Countable Distro :=
  {| encode := Distro_value; decode := Distro_of_value |}.
Next Obligation. by intros []. Qed.

Definition DistroEnumDict : gmap str Distro :=
  list_to_map
    [ (py "Arch", Arch); (py "Bunsenlabs", BunsenLabs); (py "Centos", CentOS);
      (py "CrunchBang", CrunchBang); (py "Debian", Debian);
      (py "Elementary", Elementary); (py "Fedora", Fedora);
      (py "Freebsd", FreeBSD); (py "Kubuntu", Kubuntu);
      (py "Linuxmint", Linuxmint); (py "MacOS", MacOS);
      (py "Manjaro", Manjaro); (py "Manjaro-ARM", ManjaroARM);
      (py "Neon", Neon); (py "Pop", PopOS); (py "Raspbian", Raspbian);
      (py "Ubuntu", Ubuntu); (py "Zorin", Zorin) ].

(** Iterated over with [.items()], so kept in the order of the source. *)
Definition DesktopEnvironmentProcessDict : list (str * str) :=
  [ (py "cinnamon", py "Cinnamon"); (py "dde-dock", py "Deepin");
    (py "fur-box-session", py "Fur Box"); (py "gnome-session", py "GNOME");
    (py "gnome-shell", py "GNOME"); (py "ksmserver", py "KDE");
    (py "lxqt-session", py "LXQt"); (py "lxsession", py "LXDE");
    (py "mate-session", py "MATE"); (py "xfce4-session", py "Xfce") ].

Definition DesktopEnvironmentShellVarDict : gmap str str :=
  list_to_map
    [ (py "X-Cinnamon", py "Cinnamon"); (py "GNOME", py "GNOME");
      (py "pop:GNOME", py "GNOME"); (py "ubuntu:GNOME", py "GNOME");
      (py "KDE", py "KDE"); (py "LXDE", py "LXDE"); (py "MATE", py "MATE");
      (py "Pantheon", py "Pantheon"); (py "unity", py "Unity");
      (py "Unity", py "Unity"); (py "XFCE", py "Xfce") ].

Definition DistroColourDict : gmap Distro str :=
  list_to_map
    [ (Arch, blueB); (BunsenLabs, whiteN); (CentOS, blueB);
      (CrunchBang, whiteN); (Debian, redB); (Elementary, blueB);
      (Fedora, blueB); (FreeBSD, redB); (Kubuntu, cyanB);
      (Linuxmint, greenB); (MacOS, yellowN); (Manjaro, greenB);
      (ManjaroARM, greenB); (Neon, blueB); (PopOS, cyanB); (Raspbian, redB);
      (Ubuntu, redB); (Zorin, cyanB) ].

Definition MacOSVersion_dict : gmap str str :=
  list_to_map
    [ (py "10.4", py "Mac OS X Tiger"); (py "10.5", py "Mac OS X Leopard");
      (py "10.6", py "Mac OS X Snow Leopard"); (py "10.7", py "Mac OS X Lion");
      (py "10.8", py "OS X Mountain Lion"); (py "10.9", py "OS X Mavericks");
      (py "10.10", py "OS X Yosemite"); (py "10.11", py "OS X El Capitan");
      (py "10.12", py "macOS Sierra"); (py "10.13", py "macOS High Sierra");
      (py "10.14", py "macOS Mojave"); (py "10.15", py "macOS Catalina");
      (py "10.16", py "macOS Big Sur"); (py "11.0", py "macOS Big Sur") ].

(** The fields shown, in display order. *)
Definition display : list str :=
  [ py "user"; py "hostname"; py "distro"; py "pimodel"; py "kernel";
    py "uptime"; py "wm"; py "de"; py "sh"; py "term"; py "packages";
    py "resolution"; py "gpu"; py "cpu"; py "ram"; py "disk" ].

(** ** Exceptions *)

(** [PatternError] is [re.error]. *)
Inductive exn : Type :=
  | FileNotFoundError | KeyError | AttributeError | TypeError | ValueError
  | IndexError | UnboundLocalError | ZeroDivisionError | PatternError
  | OtherError.

Inductive outcome (A : Type) : Type :=
  | Return (a : A)
  | Raise (e : exn).
Arguments Return {A} a.
Arguments Raise {A} e.

#[global] Instance outcome_ret : MRet outcome := fun A a => Return a.
#[global] Instance outcome_bind : MBind outcome := fun A B f m =>
  match m with
  | Return a => f a
  | Raise e => Raise e
  end.

(** ** The host

    Everything the program asks of its surroundings: processes it runs,
    files, the environment, and the library routines whose text is not part
    of the program.  [popen] is the decoded standard output of a command;
    starting a process is taken to succeed (the program guards the commands
    it runs with [which], and [which] itself is taken to be there).  A [None]
    where Python has a value stands for the call that raises.

    [re_sub] is [re.sub] for a pattern that compiles, and [re_error] tells
    whether compiling a pattern raises [re.error].  The patterns that the
    program writes out as literals compile; the one that it builds from an
    environment variable goes through [re_sub_pattern].

    The last group gives the text that a collector works out of command
    output with regular expressions, number formatting and float arithmetic
    before it calls [output]; none of that code touches [result].  Each may
    depend on the distribution and may raise. *)
Record World : Type := {
  popen : list str -> str;
  os_popen : str -> str;
  getenv : str -> option str;
  path_exists : str -> bool;
  read_file : str -> option str;
  dotenv_values : str -> gmap str (option str);
  SystemVersion_plist : option (gmap str str);
  process_names : list (option str);
  getuser : str;
  getppid : Z;
  glob_count : str -> Z;
  terminal_process_name : str -> outcome str;
  re_sub : str -> str -> str -> str;
  re_error : str -> bool;
  str_upper : str -> str;
  str_split_whitespace : str -> list str;
  int_of_str : str -> option Z;
  unicode_capitalize : str -> str;
  ram_text : Distro -> outcome str;
  cpu_text : Distro -> outcome str;
  uptime_text : Distro -> outcome str;
  window_manager_of : str -> str -> outcome str;
  resolution_text : Distro -> option str -> outcome str;
  gpu_text : Distro -> outcome str;
  disk_text : Distro -> outcome str;
}.

(** [re.sub(pattern, repl, string)] for a pattern built at run time. *)
Definition re_sub_pattern (w : World) (pattern repl string : str) : outcome str :=
  if re_error w pattern then Raise PatternError
  else Return (re_sub w pattern repl string).

(** [s.capitalize()].  On ASCII text the first character is upper-cased and
    the rest lower-cased; other text goes through the Unicode tables of the
    runtime. *)
Definition capitalize (w : World) (s : str) : str :=
  if isascii s then
    match s with
    | [] => []
    | c :: t => ascii_upper c :: (ascii_lower <$> t)
    end
  else unicode_capitalize w s.

(** ** Running commands *)

Definition CheckCommandInstalled (w : World) (CommandName : str) : bool :=
  let WhichOutput := split (popen w [py "which"; CommandName]) NEWLINE in
  bool_decide (1 < len WhichOutput).

Definition GetCommandOutputList (w : World) (CommandList : list str) : list str :=
  if CheckCommandInstalled w (default [] (head CommandList))
  then split (popen w CommandList) NEWLINE
  else [].

Definition GetCommandOutput (w : World) (CommandList : list str) : str :=
  if CheckCommandInstalled w (default [] (head CommandList))
  then default [] (head (split (popen w CommandList) NEWLINE))
  else [].

Definition CountCommandOutput (w : World) (CommandList : list str) : Z :=
  if CheckCommandInstalled w (default [] (head CommandList))
  then len (split (popen w CommandList) NEWLINE) - 1
  else 0.

(** ** [DesktopEvironmentID] *)

(** The inner loop over [DesktopEnvironmentProcessDict.items()]: the first
    entry whose key is the process name replaces the current value. *)
Fixpoint match_process (items : list (str * str)) (processName : str)
    (DesktopEnvironment : str) : str :=
  match items with
  | [] => DesktopEnvironment
  | (de_id, de_name) :: items' =>
      if bool_decide (de_id = processName) then de_name
      else match_process items' processName DesktopEnvironment
  end.

Definition DesktopEvironmentID (w : World) (DistroID : Distro) : str :=
  let DesktopEnvironment := py "None" in
  if bool_decide (DistroID = MacOS) then py "Aqua"
  else
    let DesktopEnvironmentShellVar := getenv w (py "XDG_CURRENT_DESKTOP") in
    match DesktopEnvironmentShellVar ≫= fun v => DesktopEnvironmentShellVarDict !! v with
    | Some name => name
    | None =>
        foldl (fun DesktopEnvironment proc =>
                 match proc with
                 | Some processName =>
                     match_process DesktopEnvironmentProcessDict processName
                       DesktopEnvironment
                 | None => DesktopEnvironment
                 end)
              DesktopEnvironment (process_names w)
    end.

(** ** [IdentifyOS]

    [OSReleasePretty] can be Python's [None] (a key of the os-release file
    without a value), hence the [option]. *)

(** The cascade on the base system, up to the two defaults. *)
Definition base_release (w : World) (DetectBaseSystem : str)
    : outcome (str * option str) :=
  if bool_decide (DetectBaseSystem = py "Darwin") then
    match SystemVersion_plist w with
    | None => Raise FileNotFoundError
    | Some SystemVersionInfo =>
        match SystemVersionInfo !! py "ProductUserVisibleVersion" with
        | None => Raise KeyError
        | Some OSXVersion =>
            let MinorVersionLocation :=
              find OSXVersion (py ".") (find OSXVersion (py ".") 0 + 1) in
            let BaseOSXVersion := slice_to OSXVersion MinorVersionLocation in
            Return (py "MacOS",
                    Some match MacOSVersion_dict !! BaseOSXVersion with
                         | Some name => name ++ py " (" ++ OSXVersion ++ py ")"
                         | None => py "Mac OS Version " ++ OSXVersion
                         end)
        end
    end
  else if bool_decide (DetectBaseSystem ∈ [py "Linux"; py "FreeBSD"]) then
    let OSReleaseFile := py "/etc/os-release" in
    if path_exists w OSReleaseFile then
      let OSRelease := dotenv_values w OSReleaseFile in
      OSReleaseID ←
        match OSRelease !! py "ID" with
        | Some (Some v) => Return (capitalize w v)
        | Some None => Raise AttributeError
        | None => Return (py "Undetermined")
        end;
      let OSReleasePretty :=
        match OSRelease !! py "PRETTY_NAME" with
        | Some v => v
        | None => Some (py "Undetermined")
        end in
      Return (OSReleaseID, OSReleasePretty)
    else if CheckCommandInstalled w (py "lsb_release") then
      Return (GetCommandOutput w [py "lsb_release"; py "-is"],
              Some (GetCommandOutput w [py "lsb_release"; py "-ds"]))
    else Return (py "Undetermined", Some (py "Undetermined"))
  else Return (py "Undetermined", Some (py "Undetermined")).

(** [OSReleasePretty + " " + OSArchitecture]. *)
Definition tag_architecture (w : World) (OSReleasePretty : option str)
    : outcome (option str) :=
  if CheckCommandInstalled w (py "uname") then
    let OSArchitecture := GetCommandOutput w [py "uname"; py "-m"] in
    match OSReleasePretty with
    | Some p => Return (Some (p ++ py " " ++ OSArchitecture))
    | None => Raise TypeError
    end
  else Return OSReleasePretty.

(** The special case for Kubuntu. *)
Definition Kubuntu_case (w : World) (DistroID : Distro)
    (OSReleaseID : str) (OSReleasePretty : option str)
    : outcome (str * option str) :=
  if bool_decide (OSReleaseID = py "Ubuntu")
     && bool_decide (DesktopEvironmentID w DistroID = py "KDE") then
    match OSReleasePretty with
    | Some p => Return (py "Kubuntu", Some (py "Ku" ++ slice_from p 1))
    | None => Raise TypeError
    end
  else Return (OSReleaseID, OSReleasePretty).

(** The special case for Raspberry Pi OS, which reports as Debian. *)
Definition Raspbian_case (w : World)
    (OSReleaseID : str) (OSReleasePretty : option str)
    : outcome (str * option str) :=
  if bool_decide (OSReleaseID = py "Debian")
     && path_exists w (py "/proc/device-tree/model") then
    match read_file w (py "/proc/device-tree/model") with
    | None => Raise FileNotFoundError
    | Some ModelInfo =>
        if contains (py "Raspberry Pi") ModelInfo then
          match OSReleasePretty with
          | Some p => Return (py "Raspbian", Some (py "Rasp" ++ slice_from p 2))
          | None => Raise TypeError
          end
        else Return (OSReleaseID, OSReleasePretty)
    end
  else Return (OSReleaseID, OSReleasePretty).

(** The identity and pretty name before the two special cases. *)
Definition raw_identity (w : World) : outcome (str * option str) :=
  let DetectBaseSystem :=
    if CheckCommandInstalled w (py "uname")
    then GetCommandOutput w [py "uname"; py "-s"]
    else py "Unknown" in
  '(OSReleaseID, OSReleasePretty) ← base_release w DetectBaseSystem;
  OSReleasePretty ← tag_architecture w OSReleasePretty;
  Return (OSReleaseID, OSReleasePretty).

(** [DistroID] is the global that [DesktopEvironmentID] reads; it still has
    its initial value when the main program calls [IdentifyOS]. *)
Definition IdentifyOS (w : World) (DistroID : Distro)
    : outcome (str * Distro * option str) :=
  '(OSReleaseID, OSReleasePretty) ← raw_identity w;
  '(OSReleaseID, OSReleasePretty) ←
    Kubuntu_case w DistroID OSReleaseID OSReleasePretty;
  '(OSReleaseID, OSReleasePretty) ←
    Raspbian_case w OSReleaseID OSReleasePretty;
  let OSEnumID :=
    match DistroEnumDict !! OSReleaseID with
    | Some d => d
    | None => Unknown
    end in
  Return (OSReleaseID, OSEnumID, OSReleasePretty).

(** ** The global variables and the collectors *)

Record Globals : Type := {
  result : list str;
  DistroID : Distro;
  DistroTitle : option str;
  GlobalTerminal : str;
}.

Definition initial_globals : Globals :=
  {| result := []; DistroID := Unknown; DistroTitle := Some (py "Unknown");
     GlobalTerminal := py "Unset" |}.

Definition set_result (r : list str) (g : Globals) : Globals :=
  {| result := r; DistroID := DistroID g; DistroTitle := DistroTitle g;
     GlobalTerminal := GlobalTerminal g |}.

Definition set_GlobalTerminal (t : str) (g : Globals) : Globals :=
  {| result := result g; DistroID := DistroID g; DistroTitle := DistroTitle g;
     GlobalTerminal := t |}.

Definition set_Distro (d : Distro) (title : option str) (g : Globals) : Globals :=
  {| result := result g; DistroID := d; DistroTitle := title;
     GlobalTerminal := GlobalTerminal g |}.

(** A computation that reads and writes the globals and may raise.  The
    globals are kept when it raises. *)
Definition M (A : Type) : Type := Globals -> outcome A * Globals.

#[global] Instance M_ret : MRet M := fun A a g => (Return a, g).
#[global] Instance M_bind : MBind M := fun A B f m g =>
  match m g with
  | (Return a, g') => f a g'
  | (Raise e, g') => (Raise e, g')
  end.

Definition get : M Globals := fun g => (Return g, g).
Definition put (g : Globals) : M unit := fun _ => (Return (), g).
Definition lift {A} (o : outcome A) : M A := fun g => (o, g).
Definition raise {A} (e : exn) : M A := lift (Raise e).

(** [m] leaves the lines already in [result] as they are and appends at
    most [n] lines, whether it returns or raises. *)
Definition appends {A} (n : nat) (m : M A) : Prop :=
  forall g, exists lines,
    result (m g).2 = result g ++ lines /\ (length lines <= n)%nat.

(** [f"{value}"] for a value that is a string or [None]. *)
Definition format (value : option str) : str :=
  match value with
  | Some s => s
  | None => py "None"
  end.

Definition output_line (d : Distro) (key value : str) : str :=
  let DistroColour :=
    match DistroColourDict !! d with
    | Some c => c
    | None => redB
    end in
  DistroColour ++ key ++ py ":" ++ clear ++ py " " ++ value.

Definition output (key value : str) : M unit :=
  g ← get;
  put (set_result (result g ++ [output_line (DistroID g) key value]) g).

(** The objects compared in [kernel_display]: the enumeration class and its
    members.  Neither [Enum] nor its metaclass defines [__eq__], so [==] and
    [!=] compare identities. *)
Inductive pyobject : Type :=
  | Distro_class
  | Distro_member (d : Distro).

Definition py_eq (a b : pyobject) : bool :=
  match a, b with
  | Distro_class, Distro_class => true
  | Distro_member x, Distro_member y => bool_decide (x = y)
  | _, _ => false
  end.

Definition py_ne (a b : pyobject) : bool := negb (py_eq a b).

Section Collectors.

Variable w : World.

Definition ram_display : M unit :=
  g ← get;
  value ← lift (ram_text w (DistroID g));
  output (py "RAM") value.

Definition distro_display : M unit :=
  g ← get;
  output (py "OS") (format (DistroTitle g)).

Definition kernel_display : M unit :=
  if py_ne Distro_class (Distro_member FreeBSD) then
    let kernel := GetCommandOutput w [py "uname"; py "-sr"] in
    output (py "Kernel") kernel
  else mret ().

Definition user_display : M unit :=
  output (py "User") (getuser w).

Definition hostname_display : M unit :=
  let hostname := GetCommandOutput w [py "uname"; py "-n"] in
  let hostname := re_sub w (py ".local") (py " ") hostname in
  output (py "Hostname") hostname.

Definition cpu_display : M unit :=
  g ← get;
  PrettyCPUInfo ← lift (cpu_text w (DistroID g));
  output (py "CPU") PrettyCPUInfo.

Definition uptime_display : M unit :=
  g ← get;
  uptime ← lift (uptime_text w (DistroID g));
  output (py "Uptime") uptime.

(** The first pattern is built from [KDE_SESSION_VERSION]: [re.sub] raises
    [re.error] when it does not compile. *)
Definition KDEVersionInfo : outcome str :=
  let KDEVersionNumber :=
    match getenv w (py "KDE_SESSION_VERSION") with
    | Some v => v
    | None => py "4"
    end in
  let KDEVersion :=
    GetCommandOutput w [py "kded" ++ KDEVersionNumber; py "--version"] in
  KDEVersion ←
    re_sub_pattern w (py "kded" ++ KDEVersionNumber ++ py " ") [] KDEVersion;
  let PlasmaShellVersion :=
    GetCommandOutput w [py "plasmashell"; py "--version"] in
  let PlasmaShellVersion := re_sub w (py "plasmashell ") [] PlasmaShellVersion in
  let PrettyKDEVersion := py "KDE" in
  let PrettyKDEVersion :=
    if bool_decide (KDEVersion ≠ []) then PrettyKDEVersion ++ py " " ++ KDEVersion
    else PrettyKDEVersion in
  Return (if bool_decide (PlasmaShellVersion ≠ [])
          then PrettyKDEVersion ++ py " / Plasma " ++ PlasmaShellVersion
          else PrettyKDEVersion).

Definition GNOMEVersionInfo : str :=
  let GNOMEVersion :=
    str_upper w (GetCommandOutput w [py "gnome-shell"; py "--version"]) in
  let GNOMEVersion := re_sub w (py "GNOME.SHELL ") [] GNOMEVersion in
  let GNOMEVersion :=
    if bool_decide (GNOMEVersion = []) then
      re_sub w (py "GNOME-SESSION-PROPERTIES ") []
        (str_upper w
           (GetCommandOutput w [py "gnome-session-properties"; py "--version"]))
    else GNOMEVersion in
  let GNOMEVersion :=
    if bool_decide (GNOMEVersion = []) then
      re_sub w (py "GNOME-CONTROL-CENTER ") []
        (str_upper w
           (GetCommandOutput w [py "gnome-control-center"; py "--version"]))
    else GNOMEVersion in
  let PrettyGNOMEVersion := py "GNOME" in
  if bool_decide (GNOMEVersion ≠ []) then PrettyGNOMEVersion ++ py " " ++ GNOMEVersion
  else PrettyGNOMEVersion.

Definition de_display : M unit :=
  g ← get;
  let DesktopEnvironment := DesktopEvironmentID w (DistroID g) in
  DesktopEnvironment ←
    (if bool_decide (DesktopEnvironment = py "KDE") then lift KDEVersionInfo
     else if bool_decide (DesktopEnvironment = py "GNOME")
          then mret GNOMEVersionInfo
     else mret DesktopEnvironment);
  if bool_decide (DesktopEnvironment ≠ py "None")
  then output (py "Desktop Environment") DesktopEnvironment
  else mret ().

(** The terminal program is looked up once and cached in [GlobalTerminal]. *)
Definition IdentifyTerminal : M str :=
  g ← get;
  if bool_decide (GlobalTerminal g = py "Unset") then
    let GrandParentPID :=
      GetCommandOutput w
        [py "ps"; py "-p"; str_of_int (getppid w); py "-oppid="] in
    name ← lift (terminal_process_name w GrandParentPID);
    _ ← put (set_GlobalTerminal name g);
    mret name
  else mret (GlobalTerminal g).

Definition TTYID : str :=
  if CheckCommandInstalled w (py "tty") then GetCommandOutput w [py "tty"]
  else py "Undetermined".

Definition wm_display : M unit :=
  g ← get;
  let WindowManager := py "Undetermined" in
  '(WindowManager, RawXpropWindowID) ←
    (if bool_decide (TTYID ∈ [py "/dev/tty1"; py "/dev/ttyv0"]) then
       mret (py "Main Console", [])
     else
       terminal ← IdentifyTerminal;
       if bool_decide (terminal = py "sshd") then mret (py "SSH Console", [])
       else if bool_decide (DistroID g = MacOS) then
         mret (py "Quartz Compositor", [])
       else if CheckCommandInstalled w (py "xprop") then
         mret (WindowManager,
               GetCommandOutput w
                 [py "xprop"; py "-root"; py "-notype";
                  py "_NET_SUPPORTING_WM_CHECK"])
       else mret (py "Undetermined (xprop not installed)", []));
  WindowManager ← lift (window_manager_of w WindowManager RawXpropWindowID);
  let WindowManager :=
    match getenv w (py "XDG_SESSION_TYPE") with
    | Some SessionTypeShellVar =>
        let SessionTypeShellVar :=
          if bool_decide (SessionTypeShellVar ≠ py "tty")
          then capitalize w SessionTypeShellVar
          else SessionTypeShellVar in
        WindowManager ++ py " (" ++ SessionTypeShellVar ++ py ")"
    | None => WindowManager
    end in
  output (py "Window Manager") WindowManager.

Definition sh_display : M unit :=
  match getenv w (py "SHELL") with
  | None => raise AttributeError
  | Some SHELL =>
      let EnvShell := default [] (last (split SHELL 47%N)) in
      let ShellVersion :=
        if bool_decide (EnvShell = py "bash")
        then GetCommandOutputList w [EnvShell; py "--version"]
        else [] in
      let ShellDisplay :=
        match ShellVersion with
        | first :: _ => first
        | [] => EnvShell
        end in
      output (py "Shell") ShellDisplay
  end.

Definition IdentifyRowsColumns : outcome (Z * Z) :=
  let CheckResult := str_split_whitespace w (os_popen w (py "stty size")) in
  match CheckResult with
  | [rows; columns] =>
      match int_of_str w rows, int_of_str w columns with
      | Some ConsoleRows, Some ConsoleColumns =>
          Return (ConsoleRows, ConsoleColumns)
      | _, _ => Raise ValueError
      end
  | _ => Return (24, 80)
  end.

Definition term_display : M unit :=
  term ← IdentifyTerminal;
  output (py "Terminal") term.

Definition DebianAppImagesCount : Z :=
  let HomeDirName := getuser w in
  glob_count w (py "/home/" ++ HomeDirName ++ py "/.local/bin/*.AppImage")
  + glob_count w (py "/home/" ++ HomeDirName ++ py "/bin/*.AppImage")
  + glob_count w (py "/home/" ++ HomeDirName ++ py "/.bin/*.AppImage").

(** A local variable that may not have been assigned yet. *)
Definition local (v : option Z) : outcome Z :=
  match v with
  | Some n => Return n
  | None => Raise UnboundLocalError
  end.

Definition packages_display : M unit :=
  g ← get;
  if bool_decide (DistroID g ∈ [Ubuntu; Kubuntu; Raspbian; Debian; CrunchBang;
                                Linuxmint; Zorin; PopOS; Elementary]) then
    let Packages := CountCommandOutput w [py "dpkg-query"; py "-W"] in
    let Flatpaks := CountCommandOutput w [py "flatpak"; py "list"] in
    let Snaps := CountCommandOutput w [py "snap"; py "list"] in
    let AppImages := DebianAppImagesCount in
    let InterimResult := str_of_int Packages ++ py " (dpkg)" in
    let InterimResult :=
      if 0 <? Flatpaks
      then InterimResult ++ py ", " ++ str_of_int Flatpaks ++ py " (flatpak)"
      else InterimResult in
    let InterimResult :=
      if 0 <? Snaps
      then InterimResult ++ py ", " ++ str_of_int Snaps ++ py " (snap)"
      else InterimResult in
    let InterimResult :=
      if 0 <? AppImages
      then InterimResult ++ py ", " ++ str_of_int AppImages ++ py " (appimaged)"
      else InterimResult in
    output (py "Packages") InterimResult
  else if bool_decide (DistroID g ∈ [Arch; ManjaroARM; Manjaro]) then
    let Packages := CountCommandOutput w [py "pacman"; py "-Q"] in
    output (py "Packages") (str_of_int Packages)
  else if bool_decide (DistroID g = Fedora) then
    let Packages := CountCommandOutput w [py "rpm"; py "-qa"] in
    output (py "Packages") (str_of_int Packages)
  else if bool_decide (DistroID g = MacOS) then
    let BrewPackageCount :=
      if CheckCommandInstalled w (py "brew")
      then Some (glob_count w (py "/usr/local/Cellar/*"))
      else None in
    let PortPackageCount :=
      if CheckCommandInstalled w (py "port")
      then Some (CountCommandOutput w [py "port"; py "installed"] - 1)
      else None in
    packages ← lift (
      Port ← local PortPackageCount;
      both ← (if 0 <? Port
              then Brew ← local BrewPackageCount; mret (0 <? Brew)
              else mret false);
      if (both : bool) then
        Brew ← local BrewPackageCount;
        mret (str_of_int Brew ++ py " (brew), " ++ str_of_int Port ++ py " (port)")
      else
        Brew ← local BrewPackageCount;
        if 0 <? Brew then mret (str_of_int Brew ++ py " (brew)")
        else if 0 <? Port then mret (str_of_int Port ++ py " (port)")
        else mret (py "No Package Managers Installed"));
    output (py "Packages") packages
  else mret ().

Definition disk_display : M unit :=
  g ← get;
  DiskOutput ←
    (if bool_decide (DistroID g = FreeBSD) then mret (py "Unsupported")
     else lift (disk_text w (DistroID g)));
  if bool_decide (DiskOutput ≠ py "Unsupported")
  then output (py "Disk") DiskOutput
  else mret ().

Definition resolution_display : M unit :=
  g ← get;
  terminal ←
    (if bool_decide (TTYID ∈ [py "/dev/tty1"; py "/dev/ttyv0"]) then mret None
     else t ← IdentifyTerminal; mret (Some t));
  g ← get;
  Resolution ← lift (resolution_text w (DistroID g) terminal);
  output (py "Resolution") Resolution.

Definition gpu_display : M unit :=
  g ← get;
  GPU ← lift (gpu_text w (DistroID g));
  output (py "GPU") GPU.

Definition pimodel_display : M unit :=
  let DeviceTreeFile := py "/proc/device-tree/model" in
  if path_exists w DeviceTreeFile then
    match read_file w DeviceTreeFile with
    | None => raise FileNotFoundError
    | Some ModelInfo =>
        if contains (py "Raspberry") ModelInfo
        then output (py "Pi Model") ModelInfo
        else mret ()
    end
  else mret ().

(** The functions that [locals()] holds under a name ending in [_display]. *)
Definition locals : gmap str (M unit) :=
  list_to_map
    [ (py "ram_display", ram_display); (py "distro_display", distro_display);
      (py "kernel_display", kernel_display); (py "user_display", user_display);
      (py "hostname_display", hostname_display); (py "cpu_display", cpu_display);
      (py "uptime_display", uptime_display); (py "de_display", de_display);
      (py "wm_display", wm_display); (py "sh_display", sh_display);
      (py "term_display", term_display);
      (py "packages_display", packages_display);
      (py "disk_display", disk_display);
      (py "resolution_display", resolution_display);
      (py "gpu_display", gpu_display); (py "pimodel_display", pimodel_display) ].

(** One round of the loop over [display]. *)
Definition run_attribute (EachAttribute : str) : M unit :=
  let FunctionName := EachAttribute ++ py "_display" in
  match locals !! FunctionName with
  | Some func => func
  | None => raise KeyError
  end.

Fixpoint run_display (attributes : list str) : M unit :=
  match attributes with
  | [] => mret ()
  | EachAttribute :: rest => _ ← run_attribute EachAttribute; run_display rest
  end.

End Collectors.

(** ** The layout *)

Definition bar : str := replicate 5 9644%N.

Definition colour_bars : list str :=
  [ redN ++ bar ++ py " " ++ greenN ++ bar ++ py " " ++ yellowN ++ bar
    ++ py " " ++ blueN ++ bar ++ py " " ++ magentaN ++ bar ++ py " "
    ++ cyanN ++ bar ++ clear;
    redH ++ bar ++ py " " ++ greenH ++ bar ++ py " " ++ yellowH ++ bar
    ++ py " " ++ blueH ++ bar ++ py " " ++ magentaH ++ bar ++ py " "
    ++ cyanH ++ bar ++ clear ].

Definition TerminalColumns (RawTerminalColumns : Z) : Z :=
  RawTerminalColumns - 1.

(** The two [extend] calls: the shorter list gets empty strings appended. *)
Definition equalize (LogoOutputList result : list str) : list str * list str :=
  let ListSizeDiff := len LogoOutputList - len result in
  if 0 <? ListSizeDiff then
    (LogoOutputList, result ++ replicate (Z.to_nat ListSizeDiff) [])
  else if ListSizeDiff <? 0 then
    (LogoOutputList ++ replicate (Z.to_nat (Z.abs ListSizeDiff)) [], result)
  else (LogoOutputList, result).

Definition MinLogoWidth (LogoOutputList : list str) : Z :=
  foldl (fun MinLogoWidth EachLine =>
           let LenLogoLine := fst (ANSILen EachLine) in
           if MinLogoWidth <? LenLogoLine then LenLogoLine else MinLogoWidth)
        0 LogoOutputList.

(** One round of the loop in [MinLogoWidth]. *)
Definition widen (MinLogoWidth : Z) (EachLine : str) : Z :=
  if MinLogoWidth <? fst (ANSILen EachLine) then fst (ANSILen EachLine)
  else MinLogoWidth.

Definition merge (LogoOutputList result : list str) : list str :=
  let '(LogoOutputList, result) := equalize LogoOutputList result in
  let MinLogoWidth := MinLogoWidth LogoOutputList in
  (fun '(EachLogo, EachData) =>
     ANSIljust EachLogo MinLogoWidth ++ py "    " ++ EachData)
    <$> zip LogoOutputList result.

Definition ArcheyOutputList (TerminalColumns : Z)
    (LogoOutputList result : list str) : list str :=
  if TerminalColumns <? 70 then result
  else merge LogoOutputList result.

(** What the last loop prints for one line. *)
Definition printed (TerminalColumns : Z) (EachLine : str) : str :=
  let ANSIChars := snd (ANSILen EachLine) in
  slice_to EachLine (TerminalColumns + ANSIChars).

(** ** The main program

    [DefineDistroLogo] is the table of logos of the source and [argv] is
    [sys.argv]; the result is the list of lines printed after the progress
    messages: the empty line of the [print] before the output list, the
    lines of the output list, and the empty line of the [print] after it.
    The performance log and the progress messages are left out. *)
Definition main (w : World) (DefineDistroLogo : Distro -> list str)
    (argv : list str) : M (list str) :=
  g ← get;
  '(_, OSEnumID, OSReleasePretty) ← lift (IdentifyOS w (DistroID g));
  _ ← put (set_Distro OSEnumID OSReleasePretty g);
  '(_, RawTerminalColumns) ← lift (IdentifyRowsColumns w);
  let TerminalColumns := TerminalColumns RawTerminalColumns in
  _ ← run_display w display;
  g ← get;
  let g := set_result (result g ++ colour_bars) g in
  let g :=
    match argv with
    | [_; LogoOverride] =>
        set_Distro match DistroEnumDict !! LogoOverride with
                   | Some d => d
                   | None => Unknown
                   end (DistroTitle g) g
    | _ => g
    end in
  _ ← put g;
  let lines := ArcheyOutputList TerminalColumns (DefineDistroLogo (DistroID g))
                 (result g) in
  _ ← (if TerminalColumns <? 70 then mret ()
       else put (set_result
                   (snd (equalize (DefineDistroLogo (DistroID g)) (result g)))
                   g));
  mret ([] :: (printed TerminalColumns <$> lines) ++ [[]]).

(** ** Hosts and lines used in the examples *)

(** [s.split()] and [int(s)] on the ASCII text that [stty size] prints. *)
Definition ascii_space (c : char) : bool :=
  ((c =? 32) || ((9 <=? c) && (c <=? 13)))%N.

Fixpoint ascii_split_whitespace (word : option str) (s : str) : list str :=
  match s with
  | [] => match word with Some x => [x] | None => [] end
  | c :: t =>
      if ascii_space c then
        match word with
        | Some x => x :: ascii_split_whitespace None t
        | None => ascii_split_whitespace None t
        end
      else ascii_split_whitespace (Some (default [] word ++ [c])) t
  end.

Definition decimal_int (s : str) : option Z :=
  match s with
  | [] => None
  | _ =>
      if forallb nums s
      then Some (foldl (fun n c => 10 * n + Z.of_N (c - 48)) 0 s)
      else None
  end.

(** The patterns of the examples are plain text with, at most, parentheses:
    such a pattern compiles when its parentheses are balanced. *)
Fixpoint unbalanced (depth : nat) (pattern : str) : bool :=
  match pattern with
  | [] => negb (depth =? 0)%nat
  | c :: t =>
      if (c =? 40)%N then unbalanced (S depth) t
      else if (c =? 41)%N then
        match depth with
        | O => true
        | S d => unbalanced d t
        end
      else unbalanced depth t
  end.

(** A host given by the output of its commands, its environment, its files,
    the parsed os-release file, the names of its processes and the system
    version property list.  A command that is not listed prints nothing;
    [stty size] prints nothing, so that the terminal counts as 80 columns
    wide. *)
Definition host (commands : list (list str * str)) (environ : list (str * str))
    (files : list (str * str)) (os_release : list (str * option str))
    (processes : list (option str)) (plist : option (list (str * str)))
    : World :=
  {| popen := fun cmd =>
       default [] ((list_to_map commands : gmap (list str) str) !! cmd);
     os_popen := fun _ => [];
     getenv := fun name => (list_to_map environ : gmap str str) !! name;
     path_exists := fun path =>
       bool_decide (is_Some ((list_to_map files : gmap str str) !! path));
     read_file := fun path => (list_to_map files : gmap str str) !! path;
     dotenv_values := fun _ => list_to_map os_release;
     SystemVersion_plist := list_to_map <$> plist;
     process_names := processes;
     getuser := py "ada";
     getppid := 4242;
     glob_count := fun _ => 0;
     terminal_process_name := fun _ => Return (py "gnome-terminal-server");
     re_sub := fun _ _ s => s;
     re_error := unbalanced 0;
     str_upper := fun s => ascii_upper <$> s;
     str_split_whitespace := ascii_split_whitespace None;
     int_of_str := decimal_int;
     unicode_capitalize := fun s => s;
     ram_text := fun _ =>
       Return (greenB ++ py "3012 MB " ++ clear ++ py "/ 15890 MB");
     cpu_text := fun _ => Return (py "Intel(R) Core(TM) i7-8550U CPU @ 1.80GHz");
     uptime_text := fun _ => Return (py "0 days, 3 hours, 12 minutes.");
     window_manager_of := fun WindowManager _ => Return WindowManager;
     resolution_text := fun _ _ => Return (py "1920x1080, 60 Hz");
     gpu_text := fun _ => Return (py "Intel Corporation, UHD Graphics 620");
     disk_text := fun _ =>
       Return (greenB ++ py "41G" ++ clear ++ py " / 234G (18%)") |}.

(** The same host behind a terminal for which [stty size] prints [size]. *)
Definition with_stty (size : str) (w : World) : World :=
  {| popen := popen w;
     os_popen := fun command =>
       if bool_decide (command = py "stty size") then size else os_popen w command;
     getenv := getenv w;
     path_exists := path_exists w;
     read_file := read_file w;
     dotenv_values := dotenv_values w;
     SystemVersion_plist := SystemVersion_plist w;
     process_names := process_names w;
     getuser := getuser w;
     getppid := getppid w;
     glob_count := glob_count w;
     terminal_process_name := terminal_process_name w;
     re_sub := re_sub w;
     re_error := re_error w;
     str_upper := str_upper w;
     str_split_whitespace := str_split_whitespace w;
     int_of_str := int_of_str w;
     unicode_capitalize := unicode_capitalize w;
     ram_text := ram_text w;
     cpu_text := cpu_text w;
     uptime_text := uptime_text w;
     window_manager_of := window_manager_of w;
     resolution_text := resolution_text w;
     gpu_text := gpu_text w;
     disk_text := disk_text w |}.

(** What [which] prints for an installed command. *)
Definition installed (name : string) : list str * str :=
  ([py "which"; py name], py "/usr/bin/" ++ py name ++ [NEWLINE]).

(** A Darwin host on which the system version property list cannot be
    opened. *)
Definition darwin_without_plist : World :=
  host [ installed "uname";
         ([py "uname"; py "-s"], py "Darwin" ++ [NEWLINE]);
         ([py "uname"; py "-m"], py "arm64" ++ [NEWLINE]) ]
       [] [] [] [] None.

(** A Linux host whose os-release file has a line [ID] without a value. *)
Definition linux_with_bare_ID : World :=
  host [ installed "uname";
         ([py "uname"; py "-s"], py "Linux" ++ [NEWLINE]);
         ([py "uname"; py "-m"], py "x86_64" ++ [NEWLINE]) ]
       [] [(py "/etc/os-release", py "ID" ++ [NEWLINE])]
       [(py "ID", None)] [] None.

(** Ubuntu 22.04 under KDE on x86_64. *)
Definition kubuntu_host : World :=
  host [ installed "uname";
         ([py "uname"; py "-s"], py "Linux" ++ [NEWLINE]);
         ([py "uname"; py "-m"], py "x86_64" ++ [NEWLINE]) ]
       [(py "XDG_CURRENT_DESKTOP", py "KDE"); (py "SHELL", py "/bin/bash")]
       [(py "/etc/os-release", [])]
       [ (py "ID", Some (py "ubuntu"));
         (py "PRETTY_NAME", Some (py "Ubuntu 22.04.3 LTS")) ]
       [] None.

(** Raspberry Pi OS (64 bit), which reports as Debian. *)
Definition raspberry_pi_host : World :=
  host [ installed "uname";
         ([py "uname"; py "-s"], py "Linux" ++ [NEWLINE]);
         ([py "uname"; py "-m"], py "aarch64" ++ [NEWLINE]) ]
       []
       [ (py "/etc/os-release", []);
         (py "/proc/device-tree/model", py "Raspberry Pi 4 Model B Rev 1.4") ]
       [ (py "ID", Some (py "debian"));
         (py "PRETTY_NAME", Some (py "Debian GNU/Linux 12 (bookworm)")) ]
       [] None.

(** The Ubuntu logo of [DefineDistroLogo]. *)
Definition Ubuntu_logo : list str :=
  [ redB ++ py "               .-/+oossssoo+/-.";
    redB ++ py "           `:+ssssssssssssssssss+:`";
    redB ++ py "         -+ssssssssssssssssssyyssss+-";
    redB ++ py "       .ossssssssssssssssss" ++ whiteB ++ py "dMMMNy" ++ redB ++ py "sssso.";
    redB ++ py "      /sssssssssss" ++ whiteB ++ py "hdmmNNmmyNMMMMh" ++ redB ++ py "ssssss/";
    redB ++ py "     +sssssssss" ++ whiteB ++ py "hm" ++ redB ++ py "yd" ++ whiteB ++ py "MMMMMMMNddddy" ++ redB ++ py "ssssssss+";
    redB ++ py "    /ssssssss" ++ whiteB ++ py "hNMMM" ++ redB ++ py "yh" ++ whiteB ++ py "hyyyyhmNMMMNh" ++ redB ++ py "ssssssss/";
    redB ++ py "   .ssssssss" ++ whiteB ++ py "dMMMNh" ++ redB ++ py "ssssssssss" ++ whiteB ++ py "hNMMMd" ++ redB ++ py "ssssssss.";
    redB ++ py "   +ssss" ++ whiteB ++ py "hhhyNMMNy" ++ redB ++ py "ssssssssssss" ++ whiteB ++ py "yNMMMy" ++ redB ++ py "sssssss+";
    redB ++ py "   oss" ++ whiteB ++ py "yNMMMNyMMh" ++ redB ++ py "ssssssssssssss" ++ whiteB ++ py "hmmmh" ++ redB ++ py "ssssssso";
    redB ++ py "   oss" ++ whiteB ++ py "yNMMMNyMMh" ++ redB ++ py "sssssssssssssshmmmhssssssso";
    redB ++ py "   +ssss" ++ whiteB ++ py "hhhyNMMNy" ++ redB ++ py "ssssssssssss" ++ whiteB ++ py "yNMMMy" ++ redB ++ py "sssssss+";
    redB ++ py "   .ssssssss" ++ whiteB ++ py "dMMMNh" ++ redB ++ py "ssssssssss" ++ whiteB ++ py "hNMMMd" ++ redB ++ py "ssssssss.";
    redB ++ py "    /ssssssss" ++ whiteB ++ py "hNMMM" ++ redB ++ py "yh" ++ whiteB ++ py "hyyyyhdNMMMNh" ++ redB ++ py "ssssssss/";
    redB ++ py "     +sssssssss" ++ whiteB ++ py "dm" ++ redB ++ py "yd" ++ whiteB ++ py "MMMMMMMMddddy" ++ redB ++ py "ssssssss+";
    redB ++ py "      /sssssssssss" ++ whiteB ++ py "hdmNNNNmyNMMMMh" ++ redB ++ py "ssssss/";
    redB ++ py "     .ossssssssssssssssss" ++ whiteB ++ py "dMMMNy" ++ redB ++ py "sssso.";
    redB ++ py "         -+sssssssssssssssss" ++ whiteB ++ py "yyy" ++ redB ++ py "ssss+-";
    redB ++ py "           `:+ssssssssssssssssss+:`";
    redB ++ py "               .-/+oossssoo+/-." ++ clear ].

(** [result] as the collectors leave it on an Ubuntu desktop (no Pi model
    line), before the colour bars are appended. *)
Definition ubuntu_result : list str :=
  [ output_line Ubuntu (py "User") (py "ada");
    output_line Ubuntu (py "Hostname") (py "analytical");
    output_line Ubuntu (py "OS") (py "Ubuntu 22.04.3 LTS x86_64");
    output_line Ubuntu (py "Kernel") (py "Linux 6.2.0-39-generic");
    output_line Ubuntu (py "Uptime") (py "0 days, 3 hours, 12 minutes.");
    output_line Ubuntu (py "Window Manager") (py "Mutter (X11)");
    output_line Ubuntu (py "Desktop Environment") (py "GNOME 42.9");
    output_line Ubuntu (py "Shell") (py "GNU bash, version 5.1.16(1)-release");
    output_line Ubuntu (py "Terminal") (py "gnome-terminal-server");
    output_line Ubuntu (py "Packages") (py "1893 (dpkg), 12 (snap)");
    output_line Ubuntu (py "Resolution") (py "1920x1080, 60 Hz");
    output_line Ubuntu (py "GPU") (py "Intel Corporation, UHD Graphics 620");
    output_line Ubuntu (py "CPU") (py "Intel(R) Core(TM) i7-8550U CPU @ 1.80GHz");
    output_line Ubuntu (py "RAM")
      (greenB ++ py "3012 MB " ++ clear ++ py "/ 15890 MB");
    output_line Ubuntu (py "Disk")
      (greenB ++ py "41G" ++ clear ++ py " / 234G (18%)") ].

(** A label as [output] writes it: colour, key, reset, value. *)
Definition example_segments : list segment :=
  [ Escape [py "1"; py "31"] 109%N; Visible 82%N; Visible 65%N; Visible 77%N;
    Visible 58%N; Escape [py "0"] 109%N; Visible 32%N; Visible 52%N;
    Escape [] 75%N ].

(** ** Two sentences of the specification, as they are written *)

(** The Raspbian rewrite as the specification words it: only the first
    character of the pretty name is replaced by "Rasp". *)
Definition Raspbian_replaces_first_character : Prop :=
  forall (w : World) (d : Distro) (p ModelInfo : str),
    raw_identity w = Return (py "Debian", Some p) ->
    path_exists w (py "/proc/device-tree/model") = true ->
    read_file w (py "/proc/device-tree/model") = Some ModelInfo ->
    contains (py "Raspberry Pi") ModelInfo = true ->
    IdentifyOS w d
    = Return (py "Raspbian", Raspbian, Some (py "Rasp" ++ slice_from p 1)).

(** The truncation guarantee as the specification words it. *)
Definition truncation_fits_terminal : Prop :=
  forall (TerminalColumns : Z) (EachLine : str),
    fst (ANSILen (printed TerminalColumns EachLine)) <= TerminalColumns.

(** * Further functions of the program *)

(** ** Notions used in the statements *)

(** [s.count(c)] for a one-character [c]. *)
Fixpoint count (s : str) (c : char) : Z :=
  match s with
  | [] => 0
  | x :: t => (if (x =? c)%N then 1 else 0) + count t c
  end.

(** A space ends every match of the parse element: what comes after the
    space has no part in it. *)
Definition space_bounded (p : parser) : Prop :=
  forall s t, p (s ++ SPACE :: t) = (fun r => r ++ SPACE :: t) <$> p s.

(** [m] leaves [DistroID] and [DistroTitle] as they are, and
    [GlobalTerminal] too once it has been set. *)
Definition keeps_identity {A} (m : M A) : Prop :=
  forall g,
    DistroID (m g).2 = DistroID g
    /\ DistroTitle (m g).2 = DistroTitle g
    /\ (GlobalTerminal g <> py "Unset" ->
        GlobalTerminal (m g).2 = GlobalTerminal g).

(** The label colour that [output] looks up for a distribution. *)
Definition DistroColour (d : Distro) : str :=
  match DistroColourDict !! d with
  | Some c => c
  | None => redB
  end.

(** [DesktopEnvironmentProcessDict.get(processName)]. *)
Definition process_environment (processName : str) : option str :=
  (list_to_map DesktopEnvironmentProcessDict : gmap str str) !! processName.

(** One round of the loop over the processes in [DesktopEvironmentID]. *)
Definition scan_process (DesktopEnvironment : str) (proc : option str) : str :=
  match proc with
  | Some processName =>
      match_process DesktopEnvironmentProcessDict processName DesktopEnvironment
  | None => DesktopEnvironment
  end.

(** A process that the loop passes over: its name cannot be read, or it is
    not in the table. *)
Definition passed_over (proc : option str) : Prop :=
  match proc with
  | Some processName => process_environment processName = None
  | None => True
  end.

(** [c.isupper()] on ASCII. *)
Definition ascii_isupper (c : char) : bool := ((65 <=? c) && (c <=? 90))%N.

(** ** [ConvertDiskSize]

    [DiskSize / Megabyte] is Python's true division of two integers: the
    float nearest to the quotient, with [OverflowError] when that is beyond
    the largest float.  The divisors are powers of two, so the float is the
    quotient of the dividend rounded to 53 significant bits (ties to even),
    and [int] truncates it. *)
Definition round_to_float (n : Z) : Z :=
  let bits := Z.log2 n + 1 in
  if bits <=? 53 then n
  else
    let shift := bits - 53 in
    let q := Z.shiftr n shift in
    let r := Z.land n (Z.ones shift) in
    let half := Z.shiftl 1 (shift - 1) in
    let q := if (half <? r) || ((r =? half) && Z.odd q) then q + 1 else q in
    Z.shiftl q shift.

(** [int(n / 2**k)] for [n >= 0]. *)
Definition int_truediv_pow2 (n k : Z) : outcome Z :=
  if 2 ^ (1024 + k) <=? round_to_float n then Raise OtherError
  else Return (Z.shiftr (round_to_float n) k).

Definition ConvertDiskSize (DiskSize : Z) : outcome str :=
  let Megabyte := 1024 in
  let Gigabyte := Megabyte * 1024 in
  let Terabyte := Gigabyte * 1024 in
  if DiskSize <? Megabyte then Return (str_of_int DiskSize ++ py "K")
  else if DiskSize <? Gigabyte then
    q ← int_truediv_pow2 DiskSize 10; Return (str_of_int q ++ py "M")
  else if DiskSize <? Terabyte then
    q ← int_truediv_pow2 DiskSize 20; Return (str_of_int q ++ py "G")
  else
    q ← int_truediv_pow2 DiskSize 30; Return (str_of_int q ++ py "T").

(** ** [FreeBSDGetGPUInfo] *)

(** [s.strip(chars)]. *)
Fixpoint lstrip (chars : char -> bool) (s : str) : str :=
  match s with
  | c :: t => if chars c then lstrip chars t else s
  | [] => []
  end.

Definition rstrip (chars : char -> bool) (s : str) : str :=
  reverse (lstrip chars (reverse s)).

Definition strip (chars : char -> bool) (s : str) : str :=
  rstrip chars (lstrip chars s).

(** The index of the first line that contains [needle], or [-1]: the loop
    with [enumerate] and [break]. *)
Fixpoint first_line_with (needle : str) (lines : list str) (ListIndex : Z) : Z :=
  match lines with
  | [] => -1
  | EachLine :: rest =>
      if contains needle EachLine then ListIndex
      else first_line_with needle rest (ListIndex + 1)
  end.

Definition quote_or_space (c : char) : bool := ((c =? 32) || (c =? 39))%N.

Definition FreeBSDGetGPUInfo (w : World) : str :=
  let pciconfOutput := GetCommandOutputList w [py "pciconf"; py "-lv"] in
  let DisplayClassIndex :=
    first_line_with (py "    class      = display") pciconfOutput 0 in
  if DisplayClassIndex <? 3 then py "No Display Information Found"
  else
    let '(GPUDevice, GPUVendor) :=
      foldl (fun '(GPUDevice, GPUVendor) FindDetails =>
               let line := default [] (pciconfOutput !! Z.to_nat FindDetails) in
               (if contains (py "    device     = ") line
                then strip quote_or_space (slice_from line 18) else GPUDevice,
                if contains (py "    vendor     = ") line
                then strip quote_or_space (slice_from line 18) else GPUVendor))
            ([], [])
            [DisplayClassIndex; DisplayClassIndex - 1; DisplayClassIndex - 2] in
    if bool_decide (GPUVendor = []) && bool_decide (GPUDevice = [])
    then py "No Display Information Found"
    else if bool_decide (GPUVendor = []) then GPUDevice
    else GPUVendor ++ py " " ++ GPUDevice.

(** ** More hosts *)

(** What [pciconf -lv] prints for a graphics adapter that is the second
    device of the list. *)
Definition pciconf_host : World :=
  host [ installed "pciconf";
         ([py "pciconf"; py "-lv"],
          py "hostb0@pci0:0:0:0: class=0x060000" ++ [NEWLINE]
          ++ py "    vendor     = 'Intel Corporation'" ++ [NEWLINE]
          ++ py "    class      = bridge" ++ [NEWLINE]
          ++ py "vgapci0@pci0:0:2:0: class=0x030000" ++ [NEWLINE]
          ++ py "    vendor     = 'Intel Corporation'" ++ [NEWLINE]
          ++ py "    device     = 'HD Graphics 620'" ++ [NEWLINE]
          ++ py "    class      = display" ++ [NEWLINE]) ]
       [] [] [] [] None.

(** A host without a desktop variable whose shell is zsh; the session
    manager of KDE is among its processes. *)
Definition zsh_host : World :=
  host [] [(py "SHELL", py "/bin/zsh")] [] []
       [Some (py "systemd"); None; Some (py "ksmserver"); Some (py "zsh")]
       None.

(** macOS 10.15 before its first update: the version has two parts. *)
Definition catalina_host : World :=
  host [ installed "uname";
         ([py "uname"; py "-s"], py "Darwin" ++ [NEWLINE]);
         ([py "uname"; py "-m"], py "x86_64" ++ [NEWLINE]) ]
       [] [] [] []
       (Some [(py "ProductUserVisibleVersion", py "10.15")]).

(** The Ubuntu desktop behind a terminal of 60 columns. *)
Definition narrow_host : World :=
  with_stty (py "24 60" ++ [NEWLINE]) kubuntu_host.

(** KDE with a session version that is no number. *)
Definition unbalanced_kde_host : World :=
  host [] [(py "XDG_CURRENT_DESKTOP", py "KDE");
           (py "KDE_SESSION_VERSION", py "5(")] [] [] [] None.

(** The run of the program on a host, with the logo of Ubuntu for every
    distribution, and the lines it prints. *)
Definition example_run (w : World) : outcome (list str) * Globals :=
  main w (fun _ => Ubuntu_logo) [py "archey"] initial_globals.

Definition printed_lines (run : outcome (list str) * Globals) : list str :=
  match run.1 with
  | Return lines => lines
  | Raise _ => []
  end.

(** * Properties *)

(** ** Strings *)

Lemma len_app {A} (l k : list A) : len (l ++ k) = len l + len k.
Proof. unfold len. rewrite length_app. lia. Qed.

Lemma len_replicate {A} n (x : A) : len (replicate n x) = Z.of_nat n.
Proof. unfold len. by rewrite length_replicate. Qed.

Lemma len_nonneg {A} (l : list A) : 0 <= len l.
Proof. unfold len. lia. Qed.

Lemma len_cons {A} (x : A) l : len (x :: l) = 1 + len l.
Proof. unfold len. simpl. lia. Qed.

Lemma join_cons sep p ps :
  join sep (p :: ps) = p ++ concat ((fun q => sep ++ q) <$> ps).
Proof.
  revert p. induction ps as [|q ps IH]; intros p.
  - simpl. by rewrite app_nil_r.
  - change (join sep (p :: q :: ps)) with (p ++ sep ++ join sep (q :: ps)).
    rewrite IH. simpl. by rewrite <- !app_assoc.
Qed.

(** ** The parse elements *)

Section ParseElements.

Lemma consuming_shrinking p : consuming p -> shrinking p.
Proof. intros H s r Hs. specialize (H s r Hs). lia. Qed.

Lemma Literal_consuming c : consuming (Literal c).
Proof.
  intros [|x s] r; simpl; [done|].
  destruct (x =? c)%N; [|done]. intros [= <-]. lia.
Qed.

Lemma oneOf_consuming chars : consuming (oneOf chars).
Proof.
  intros [|x s] r; simpl; [done|].
  destruct (chars x); [|done]. intros [= <-]. lia.
Qed.

Lemma skip_while_length chars s : (length (skip_while chars s) <= length s)%nat.
Proof.
  induction s as [|x s IH]; simpl; [lia|].
  destruct (chars x); simpl; lia.
Qed.

Lemma Word_consuming chars : consuming (Word chars).
Proof.
  intros [|x s] r; simpl; [done|].
  destruct (chars x); [|done]. intros [= <-].
  pose proof (skip_while_length chars s). lia.
Qed.

Lemma And_consuming_l p q : consuming p -> shrinking q -> consuming (And p q).
Proof.
  intros Hp Hq s r. unfold And. destruct (p s) as [m|] eqn:E; [|done].
  intros Hr. specialize (Hp _ _ E). specialize (Hq _ _ Hr). lia.
Qed.

Lemma And_shrinking p q : shrinking p -> shrinking q -> shrinking (And p q).
Proof.
  intros Hp Hq s r. unfold And. destruct (p s) as [m|] eqn:E; [|done].
  intros Hr. specialize (Hp _ _ E). specialize (Hq _ _ Hr). lia.
Qed.

Lemma Optional_shrinking p : shrinking p -> shrinking (Optional p).
Proof.
  intros Hp s r. unfold Optional. destruct (p s) as [m|] eqn:E.
  - intros [= <-]. eauto.
  - intros [= <-]. lia.
Qed.

Lemma ZeroOrMore_loop_shrinking n p :
  shrinking p -> shrinking (ZeroOrMore_loop n p).
Proof.
  intros Hp. induction n as [|n IH]; intros s r; simpl.
  - intros [= <-]. lia.
  - destruct (p s) as [m|] eqn:E.
    + intros Hr. specialize (Hp _ _ E). specialize (IH _ _ Hr). lia.
    + intros [= <-]. lia.
Qed.

Lemma ZeroOrMore_shrinking p : shrinking p -> shrinking (ZeroOrMore p).
Proof. intros Hp s r. apply ZeroOrMore_loop_shrinking, Hp. Qed.

(** The number of rounds given to [ZeroOrMore_loop] is irrelevant once it
    exceeds the length of the input. *)
Lemma ZeroOrMore_loop_rounds p n m s :
  consuming p -> (length s < n)%nat -> (length s < m)%nat ->
  ZeroOrMore_loop n p s = ZeroOrMore_loop m p s.
Proof.
  intros Hp. revert m s. induction n as [|n IH]; intros m s Hn Hm; [lia|].
  destruct m as [|m]; [lia|]. simpl.
  destruct (p s) as [r|] eqn:E; [|done].
  specialize (Hp _ _ E). apply IH; lia.
Qed.

Lemma ZeroOrMore_unfold p s :
  consuming p ->
  ZeroOrMore p s =
    match p s with
    | Some r => ZeroOrMore p r
    | None => Some s
    end.
Proof.
  intros Hp. unfold ZeroOrMore at 1. simpl.
  destruct (p s) as [r|] eqn:E; [|done].
  unfold ZeroOrMore. pose proof (Hp _ _ E).
  apply ZeroOrMore_loop_rounds; [done|lia..].
Qed.

Lemma Literal_stable c : c <> SPACE -> stable (Literal c).
Proof.
  intros Hc [|x s] k; unfold Literal.
  - destruct k as [|k]; [done|]. cbn [app replicate].
    destruct (N.eqb_spec SPACE c); [congruence|done].
  - cbn [app]. by destruct (x =? c)%N.
Qed.

Lemma oneOf_stable chars : chars SPACE = false -> stable (oneOf chars).
Proof.
  intros Hc [|x s] k; simpl.
  - destruct k as [|k]; simpl; [done|]. by rewrite Hc.
  - by destruct (chars x).
Qed.

Lemma skip_while_spaces chars s k :
  chars SPACE = false ->
  skip_while chars (s ++ replicate k SPACE)
  = skip_while chars s ++ replicate k SPACE.
Proof.
  intros Hc. induction s as [|x s IH]; simpl.
  - destruct k as [|k]; simpl; [done|]. by rewrite Hc.
  - by destruct (chars x).
Qed.

Lemma Word_stable chars : chars SPACE = false -> stable (Word chars).
Proof.
  intros Hc [|x s] k; simpl.
  - destruct k as [|k]; simpl; [done|]. by rewrite Hc.
  - destruct (chars x); [|done]. simpl. by rewrite skip_while_spaces.
Qed.

Lemma And_stable p q : stable p -> stable q -> stable (And p q).
Proof.
  intros Hp Hq s k. unfold And. rewrite Hp.
  destruct (p s) as [r|]; simpl; [apply Hq|done].
Qed.

Lemma Optional_stable p : stable p -> stable (Optional p).
Proof.
  intros Hp s k. unfold Optional. rewrite Hp. by destruct (p s).
Qed.

Lemma ZeroOrMore_stable p : stable p -> consuming p -> stable (ZeroOrMore p).
Proof.
  intros Hs Hc s. remember (length s) as n eqn:Hn.
  revert s Hn. induction (lt_wf n) as [n _ IH]; intros s -> k.
  rewrite !ZeroOrMore_unfold by done. rewrite Hs.
  destruct (p s) as [r|] eqn:E; simpl; [|done].
  apply (IH (length r)); [by apply Hc|done].
Qed.

End ParseElements.

Create HintDb parse_elements.

#[local] Hint Resolve
  consuming_shrinking Literal_consuming oneOf_consuming Word_consuming
  : parse_elements.

Lemma escapeSeq_consuming : consuming escapeSeq.
Proof.
  unfold escapeSeq, Combine, delimitedList, integer.
  apply And_consuming_l; [apply Literal_consuming|].
  repeat first
    [ apply And_shrinking | apply Optional_shrinking
    | apply ZeroOrMore_shrinking ];
    apply consuming_shrinking; auto with parse_elements.
Qed.

Lemma escapeSeq_stable : stable escapeSeq.
Proof.
  unfold escapeSeq, Combine, delimitedList, integer.
  repeat first
    [ apply And_stable | apply Optional_stable | apply ZeroOrMore_stable
    | apply Literal_stable; done | apply oneOf_stable; done
    | apply Word_stable; done ].
  apply And_consuming_l; auto with parse_elements.
Qed.

Lemma escapeSeq_nil : escapeSeq [] = None.
Proof. reflexivity. Qed.

(** ** [transformString] *)

Lemma scan_rounds p n m s :
  (length s <= n)%nat -> (length s <= m)%nat -> scan n p s = scan m p s.
Proof.
  revert m s. induction n as [|n IH]; intros m s Hn Hm.
  - destruct s; [|simpl in Hn; lia]. by destruct m.
  - destruct m as [|m].
    + destruct s; [done|simpl in Hm; lia].
    + destruct s as [|c t]; [done|]. simpl in *.
      destruct (p (c :: t)) as [r|] eqn:E.
      * destruct (Nat.ltb_spec (length r) (S (length t))).
        -- apply IH; lia.
        -- f_equal. apply IH; lia.
      * f_equal. apply IH; lia.
Qed.

Lemma transformString_nil p : transformString_Suppress p [] = [].
Proof. reflexivity. Qed.

Lemma transformString_cons p c t :
  transformString_Suppress p (c :: t) =
    match p (c :: t) with
    | Some r =>
        if (length r <? length (c :: t))%nat then transformString_Suppress p r
        else c :: transformString_Suppress p t
    | None => c :: transformString_Suppress p t
    end.
Proof.
  unfold transformString_Suppress at 1. cbn [scan].
  destruct (p (c :: t)) as [r|] eqn:E.
  - destruct (Nat.ltb_spec (length r) (length (c :: t))) as [Hlt|Hge].
    + apply scan_rounds; simpl in *; lia.
    + reflexivity.
  - reflexivity.
Qed.

Lemma transformString_length p s :
  (length (transformString_Suppress p s) <= length s)%nat.
Proof.
  remember (length s) as n eqn:Hn. revert s Hn.
  induction (lt_wf n) as [n _ IH]; intros s ->.
  destruct s as [|c t]; [simpl; lia|]. rewrite transformString_cons.
  assert (Ht : (length (transformString_Suppress p t) <= length t)%nat)
    by (apply (IH (length t)); simpl; [lia|done]).
  destruct (p (c :: t)) as [r|]; [|simpl; lia].
  destruct (Nat.ltb_spec (length r) (length (c :: t))) as [Hlt|Hge];
    [|simpl; lia].
  specialize (IH (length r) Hlt r eq_refl). lia.
Qed.

Lemma transformString_spaces p k :
  stable p -> p [] = None ->
  transformString_Suppress p (replicate k SPACE) = replicate k SPACE.
Proof.
  intros Hs Hnil. induction k as [|k IH]; [done|].
  cbn [replicate]. rewrite transformString_cons.
  pose proof (Hs [] (S k)) as H. rewrite Hnil in H.
  cbn [app replicate fmap option_fmap option_map] in H.
  by rewrite H, IH.
Qed.

(** Spaces appended to a string come out of the scan unchanged, after the
    scan of the string. *)
Lemma transformString_app_spaces p s k :
  stable p -> p [] = None ->
  transformString_Suppress p (s ++ replicate k SPACE)
  = transformString_Suppress p s ++ replicate k SPACE.
Proof.
  intros Hs Hnil. remember (length s) as n eqn:Hn. revert s Hn.
  induction (lt_wf n) as [n _ IH]; intros s ->.
  destruct s as [|c t].
  - simpl. by apply transformString_spaces.
  - rewrite <- app_comm_cons, !transformString_cons.
    rewrite (app_comm_cons t), Hs. simpl.
    destruct (p (c :: t)) as [r|] eqn:E; simpl.
    + rewrite length_app.
      destruct (Nat.ltb_spec (length r) (S (length t))) as [Hlt|Hge].
      * rewrite length_app.
        destruct (Nat.ltb_spec (length r + length (replicate k SPACE))
                    (S (length t + length (replicate k SPACE)))); [|lia].
        apply (IH (length r)); simpl; [lia|done].
      * rewrite length_app.
        destruct (Nat.ltb_spec (length r + length (replicate k SPACE))
                    (S (length t + length (replicate k SPACE)))); [lia|].
        cbn [app]. f_equal.
        apply (IH (length t)); simpl; [lia|done].
    + cbn [app]. f_equal.
      apply (IH (length t)); simpl; [lia|done].
Qed.

(** ** [ANSILen] *)

Lemma NonANSIString_le s : len (NonANSIString s) <= len s.
Proof.
  unfold len, NonANSIString.
  pose proof (transformString_length escapeSeq s). lia.
Qed.

Lemma ANSILen_visible_nonneg s : 0 <= fst (ANSILen s).
Proof. apply len_nonneg. Qed.

Lemma ANSILen_escape_nonneg s : 0 <= snd (ANSILen s).
Proof. simpl. pose proof (NonANSIString_le s). lia. Qed.

Lemma ANSILen_total s : fst (ANSILen s) + snd (ANSILen s) = len s.
Proof. simpl. lia. Qed.

Lemma NonANSIString_app_spaces s k :
  NonANSIString (s ++ replicate k SPACE)
  = NonANSIString s ++ replicate k SPACE.
Proof.
  apply transformString_app_spaces;
    [apply escapeSeq_stable | apply escapeSeq_nil].
Qed.

Lemma ANSILen_app_spaces s k :
  ANSILen (s ++ replicate k SPACE)
  = (fst (ANSILen s) + Z.of_nat k, snd (ANSILen s)).
Proof.
  unfold ANSILen. rewrite NonANSIString_app_spaces. simpl.
  rewrite !len_app, len_replicate. f_equal; lia.
Qed.

(** C5. [ANSIljust(s, n)] has visible length [max(n, visibleLength(s))], for
    every string [s] and every integer [n]; its escape-sequence count is
    that of [s].  The pad is computed on top of the escape-sequence count of
    [s]. *)
Theorem ANSIljust_visible_length (s : str) (n : Z) :
  fst (ANSILen (ANSIljust s n)) = Z.max n (fst (ANSILen s))
  /\ snd (ANSILen (ANSIljust s n)) = snd (ANSILen s)
  /\ ANSIljust s n = s ++ replicate (Z.to_nat (n - fst (ANSILen s))) SPACE.
Proof.
  assert (E : ANSIljust s n
              = s ++ replicate (Z.to_nat (n - fst (ANSILen s))) SPACE).
  { unfold ANSIljust, ljust. do 2 f_equal. simpl. lia. }
  rewrite E, ANSILen_app_spaces. simpl.
  pose proof (len_nonneg (NonANSIString s)). repeat split; lia.
Qed.

(** ** Strings made of visible characters and escape sequences *)

Lemma alphas_not_nums c : alphas c = true -> nums c = false.
Proof.
  unfold alphas, nums. intros H. apply orb_true_iff in H.
  rewrite !andb_true_iff, !N.leb_le in H.
  apply andb_false_iff. rewrite !N.leb_gt. lia.
Qed.

Lemma alphas_not_semicolon c : alphas c = true -> (c =? 59)%N = false.
Proof.
  unfold alphas. intros H. apply orb_true_iff in H.
  rewrite !andb_true_iff, !N.leb_le in H. apply N.eqb_neq. lia.
Qed.

Lemma skip_while_digits p s :
  forallb nums p = true -> no_digit_ahead s -> skip_while nums (p ++ s) = s.
Proof.
  intros Hp Hs. induction p as [|d p IH]; simpl in *.
  - destruct s as [|c s]; [done|]. simpl in *. by rewrite Hs.
  - apply andb_prop in Hp as [-> Hp]. auto.
Qed.

Lemma integer_param p s :
  valid_param p = true -> no_digit_ahead s -> integer (p ++ s) = Some s.
Proof.
  intros Hp Hs. destruct p as [|d p]; [done|].
  simpl in Hp. apply andb_prop in Hp as [Hd Hp].
  unfold integer, Word. simpl. rewrite Hd. f_equal.
  by apply skip_while_digits.
Qed.

Lemma more_params ps final s :
  forallb valid_param ps = true -> alphas final = true ->
  ZeroOrMore (And (Literal 59%N) integer)
    (concat ((fun q => [59%N] ++ q) <$> ps) ++ final :: s)
  = Some (final :: s).
Proof.
  intros Hps Hf.
  assert (Hc : consuming (And (Literal 59%N) integer)).
  { apply And_consuming_l; [apply Literal_consuming|].
    apply consuming_shrinking, Word_consuming. }
  induction ps as [|q ps IH]; rewrite ZeroOrMore_unfold by done.
  - simpl. unfold And, Literal. by rewrite alphas_not_semicolon.
  - simpl in Hps. apply andb_prop in Hps as [Hq Hps].
    cbn [fmap list_fmap concat app]. unfold And at 1, Literal at 1.
    rewrite <- app_assoc. simpl. rewrite integer_param; [by apply IH|done|].
    destruct ps as [|q' ps]; simpl; [by apply alphas_not_nums|done].
Qed.

Lemma escapeSeq_render params final s :
  valid_segment (Escape params final) = true ->
  escapeSeq (render_segment (Escape params final) ++ s) = Some s.
Proof.
  simpl. intros H. apply andb_prop in H as [Hps Hf].
  unfold escapeSeq, Combine, And at 1 2, Literal at 1 2. simpl.
  unfold And at 1, Optional, delimitedList.
  destruct params as [|p ps].
  - simpl. unfold And at 1, integer, Word.
    rewrite (alphas_not_nums _ Hf). simpl. by rewrite Hf.
  - simpl in Hps. apply andb_prop in Hps as [Hp Hps].
    rewrite join_cons, <- !app_assoc. unfold And at 1.
    rewrite integer_param; [|done|].
    + change ([final] ++ s) with (final :: s).
      rewrite more_params by done. simpl. by rewrite Hf.
    + destruct ps; simpl; [by apply alphas_not_nums|done].
Qed.

Lemma escapeSeq_visible c s : (c =? ESC)%N = false -> escapeSeq (c :: s) = None.
Proof. intros H. unfold escapeSeq, Combine, And, Literal. by rewrite H. Qed.

Lemma NonANSIString_render gs :
  forallb valid_segment gs = true ->
  NonANSIString (render gs) = visible_chars gs.
Proof.
  unfold NonANSIString, render. induction gs as [|g gs IH]; [done|].
  cbn [forallb fmap list_fmap concat visible_chars].
  intros H. apply andb_prop in H as [Hg Hgs].
  destruct g as [c|params final].
  - cbn [render_segment app valid_segment] in *.
    rewrite transformString_cons, escapeSeq_visible.
    + f_equal. by apply IH.
    + by destruct (c =? ESC)%N.
  - pose proof (escapeSeq_render params final (concat (render_segment <$> gs)) Hg)
      as E.
    cbn [render_segment app] in *. rewrite transformString_cons, E.
    destruct (Nat.ltb_spec (length (concat (render_segment <$> gs)))
                (length (ESC :: 91%N :: (join [59%N] params ++ [final])
                                ++ concat (render_segment <$> gs)))) as [_|Hge].
    + by apply IH.
    + simpl in Hge. rewrite length_app in Hge. lia.
Qed.

Lemma visible_chars_count gs : len (visible_chars gs) = visible_count gs.
Proof.
  induction gs as [|[c|ps f] gs IH]; simpl; [done| |done].
  rewrite len_cons. lia.
Qed.

Lemma render_length gs : len (render gs) = visible_count gs + escape_chars gs.
Proof.
  unfold render. induction gs as [|[c|ps f] gs IH]; [done|..].
  - cbn [fmap list_fmap concat render_segment app visible_count
         escape_chars] in *.
    rewrite len_cons. lia.
  - cbn [fmap list_fmap concat visible_count escape_chars] in *.
    rewrite len_app. lia.
Qed.

(** C6. For a string made of visible characters (none of them the escape
    character) and valid escape sequences, the first count of [ANSILen] is
    the number of visible characters, the second the number of characters in
    the escape sequences, and the two add up to the length of the string. *)
Theorem ANSILen_counts_add_up (gs : list segment) :
  forallb valid_segment gs = true ->
  fst (ANSILen (render gs)) + snd (ANSILen (render gs)) = len (render gs)
  /\ fst (ANSILen (render gs)) = visible_count gs
  /\ snd (ANSILen (render gs)) = escape_chars gs.
Proof.
  intros H. unfold ANSILen. cbn [fst snd].
  rewrite NonANSIString_render by done.
  rewrite visible_chars_count, render_length. lia.
Qed.

Lemma ANSILen_counts_add_up_witness :
  forallb valid_segment example_segments = true
  /\ render example_segments = redB ++ py "RAM:" ++ clear ++ py " 4" ++ esc "[K"
  /\ fst (ANSILen (render example_segments))
      + snd (ANSILen (render example_segments))
      = len (render example_segments)
  /\ fst (ANSILen (render example_segments)) = 6
  /\ snd (ANSILen (render example_segments)) = 14.
Proof.
  split; [reflexivity|]. split; [reflexivity|].
  destruct (ANSILen_counts_add_up example_segments) as (H1 & H2 & H3);
    [reflexivity|].
  split; [exact H1|]. split; [exact H2|exact H3].
Defined.

(** Sequences that the grammar does not accept count as visible
    characters: a parameter list that ends in [;], one that starts with
    [;], and an escape character with nothing after it. *)
Example ANSILen_unrecognised :
  ANSILen (esc "[1;m") = (5, 0)
  /\ ANSILen (esc "[;1m") = (5, 0)
  /\ ANSILen (py "ab" ++ [ESC]) = (3, 0)
  /\ ANSILen (esc "[1;31mab" ++ esc "[m") = (2, 10).
Proof. repeat split; reflexivity. Qed.

(** C5 on a line of the Ubuntu logo: 39 visible characters and 21 characters
    of escape sequences, padded to 43 columns. *)
Example ANSIljust_logo_line :
  forall line, Ubuntu_logo !! 3%nat = Some line ->
    ANSILen line = (39, 21) /\ ANSILen (ANSIljust line 43) = (43, 21).
Proof. intros line [= <-]. by vm_compute. Qed.

(** ** The layout *)

Lemma equalize_eq (LogoOutputList result : list str) :
  equalize LogoOutputList result
  = (LogoOutputList
       ++ replicate (length result - length LogoOutputList)%nat [],
     result ++ replicate (length LogoOutputList - length result)%nat []).
Proof.
  unfold equalize, len.
  destruct (Z.ltb_spec 0 (Z.of_nat (length LogoOutputList)
                          - Z.of_nat (length result))) as [Hpos|Hle].
  - replace (length result - length LogoOutputList)%nat with O by lia.
    rewrite app_nil_r. do 3 f_equal. lia.
  - destruct (Z.ltb_spec (Z.of_nat (length LogoOutputList)
                          - Z.of_nat (length result)) 0) as [Hneg|Hge].
    + replace (length LogoOutputList - length result)%nat with O by lia.
      rewrite app_nil_r. do 3 f_equal. lia.
    + replace (length result - length LogoOutputList)%nat with O by lia.
      replace (length LogoOutputList - length result)%nat with O by lia.
      by rewrite !app_nil_r.
Qed.

Lemma MinLogoWidth_foldl LogoOutputList :
  MinLogoWidth LogoOutputList = foldl widen 0 LogoOutputList.
Proof. reflexivity. Qed.

Lemma widen_nonneg lines width : 0 <= width -> 0 <= foldl widen width lines.
Proof.
  revert width. induction lines as [|line lines IH]; intros width H; [done|].
  cbn [foldl]. apply IH. unfold widen.
  pose proof (ANSILen_visible_nonneg line).
  destruct (Z.ltb_spec width (fst (ANSILen line))); lia.
Qed.

Lemma widen_empty_lines n width :
  0 <= width -> foldl widen width (replicate n []) = width.
Proof.
  intros H. induction n as [|n IH]; [done|]. cbn [replicate foldl].
  replace (widen width []) with width; [done|].
  unfold widen. change (fst (ANSILen [])) with 0.
  by destruct (Z.ltb_spec width 0); [lia|].
Qed.

(** Empty lines appended to the logo leave its width as it was. *)
Lemma MinLogoWidth_padded LogoOutputList n :
  MinLogoWidth (LogoOutputList ++ replicate n []) = MinLogoWidth LogoOutputList.
Proof.
  rewrite !MinLogoWidth_foldl, foldl_app.
  apply widen_empty_lines, widen_nonneg. lia.
Qed.

(** The width is at least the visible length of every line of the logo. *)
Lemma MinLogoWidth_bounds LogoOutputList line :
  line ∈ LogoOutputList -> fst (ANSILen line) <= MinLogoWidth LogoOutputList.
Proof.
  rewrite MinLogoWidth_foldl. generalize 0.
  induction LogoOutputList as [|l ls IH]; intros width Hin.
  - by apply elem_of_nil in Hin.
  - cbn [foldl]. apply elem_of_cons in Hin as [->|Hin]; [|by apply IH].
    assert (Hmono : forall lines a, a <= foldl widen a lines).
    { clear. induction lines as [|x lines IH]; intros a; cbn [foldl]; [lia|].
      specialize (IH (widen a x)). unfold widen in *.
      destruct (Z.ltb_spec a (fst (ANSILen x))); lia. }
    specialize (Hmono ls (widen width l)). unfold widen in *.
    destruct (Z.ltb_spec width (fst (ANSILen l))); lia.
Qed.

(** C7. The merge of a logo of height [L] with data of height [D] has
    [max L D] lines: the shorter list is filled up with empty strings, and
    line [i] of the output is line [i] of the filled-up logo, left-justified
    to the width of the logo, then four spaces, then line [i] of the
    filled-up data. *)
Theorem merge_height (LogoOutputList result : list str) :
  length (merge LogoOutputList result)
  = Nat.max (length LogoOutputList) (length result)
  /\ merge LogoOutputList result
     = zip_with
         (fun EachLogo EachData =>
            ANSIljust EachLogo (MinLogoWidth LogoOutputList)
            ++ py "    " ++ EachData)
         (LogoOutputList
            ++ replicate (Nat.max (length LogoOutputList) (length result)
                          - length LogoOutputList)%nat [])
         (result
            ++ replicate (Nat.max (length LogoOutputList) (length result)
                          - length result)%nat []).
Proof.
  assert (E : merge LogoOutputList result
     = zip_with
         (fun EachLogo EachData =>
            ANSIljust EachLogo (MinLogoWidth LogoOutputList)
            ++ py "    " ++ EachData)
         (LogoOutputList
            ++ replicate (length result - length LogoOutputList)%nat [])
         (result
            ++ replicate (length LogoOutputList - length result)%nat [])).
  { unfold merge. rewrite equalize_eq, MinLogoWidth_padded.
    generalize (LogoOutputList
                  ++ replicate (length result - length LogoOutputList)%nat []).
    generalize (result
                  ++ replicate (length LogoOutputList - length result)%nat []).
    intros ds ls. revert ds.
    induction ls as [|l ls IH]; intros [|d ds]; simpl; try done.
    f_equal. apply IH. }
  split.
  - rewrite E, length_zip_with, !length_app, !length_replicate. lia.
  - rewrite E. do 3 f_equal; lia.
Qed.

Lemma ArcheyOutputList_narrow TerminalColumns LogoOutputList result :
  TerminalColumns < 70 ->
  ArcheyOutputList TerminalColumns LogoOutputList result = result.
Proof.
  intros H. unfold ArcheyOutputList.
  by destruct (Z.ltb_spec TerminalColumns 70); [|lia].
Qed.

Lemma ArcheyOutputList_wide TerminalColumns LogoOutputList result :
  70 <= TerminalColumns ->
  ArcheyOutputList TerminalColumns LogoOutputList result
  = merge LogoOutputList result.
Proof.
  intros H. unfold ArcheyOutputList.
  by destruct (Z.ltb_spec TerminalColumns 70); [lia|].
Qed.

(** In terms of the width that [stty] reports, the logo is left out up to
    and including 70 columns. *)
Lemma logo_skipped_up_to_70 RawTerminalColumns LogoOutputList result :
  RawTerminalColumns <= 70 ->
  ArcheyOutputList (TerminalColumns RawTerminalColumns) LogoOutputList result
  = result.
Proof. intros H. apply ArcheyOutputList_narrow. unfold TerminalColumns. lia. Qed.

Lemma logo_merged_from_71 RawTerminalColumns LogoOutputList result :
  71 <= RawTerminalColumns ->
  ArcheyOutputList (TerminalColumns RawTerminalColumns) LogoOutputList result
  = merge LogoOutputList result.
Proof. intros H. apply ArcheyOutputList_wide. unfold TerminalColumns. lia. Qed.

(** In particular, when [stty] reports exactly 70 columns the program works
    with [TerminalColumns = 69] and leaves the logo out; at 71 it merges
    it. *)
Lemma logo_skipped_on_70_column_terminal (LogoOutputList result : list str) :
  ArcheyOutputList (TerminalColumns 70) LogoOutputList result = result
  /\ ArcheyOutputList (TerminalColumns 71) LogoOutputList result
     = merge LogoOutputList result.
Proof. split; reflexivity. Qed.

(** ** Truncation *)

(** What does hold of a printed line: its length, escape sequences
    included, is at most [TerminalColumns] plus the escape-sequence count of
    the whole line. *)
Lemma printed_length TerminalColumns EachLine :
  0 <= TerminalColumns ->
  len (printed TerminalColumns EachLine)
  <= TerminalColumns + snd (ANSILen EachLine).
Proof.
  intros H. unfold printed, slice_to.
  pose proof (ANSILen_escape_nonneg EachLine).
  destruct (Z.leb_spec 0 (TerminalColumns + snd (ANSILen EachLine))); [|lia].
  unfold len. rewrite length_take. lia.
Qed.

(** Hence its visible length is within the escape-sequence count of the
    line from [TerminalColumns], and within [TerminalColumns] for a line
    without escape sequences. *)
Lemma printed_visible_length TerminalColumns EachLine :
  0 <= TerminalColumns ->
  fst (ANSILen (printed TerminalColumns EachLine))
  <= TerminalColumns + snd (ANSILen EachLine).
Proof.
  intros H. pose proof (printed_length TerminalColumns EachLine H).
  pose proof (NonANSIString_le (printed TerminalColumns EachLine)).
  simpl in *. lia.
Qed.

Lemma printed_plain_line TerminalColumns EachLine :
  0 <= TerminalColumns -> snd (ANSILen EachLine) = 0 ->
  fst (ANSILen (printed TerminalColumns EachLine)) <= TerminalColumns.
Proof.
  intros H E. pose proof (printed_visible_length TerminalColumns EachLine H).
  lia.
Qed.

(** A line whose escape sequence comes after the visible text: the
    truncation keeps nine visible characters on a width of five. *)
Lemma truncation_fits_terminal_fails : ~ truncation_fits_terminal.
Proof.
  intros H. specialize (H 5 (py "abcdefghij" ++ clear)).
  vm_compute in H. by apply H.
Qed.

(** C2. An 80-column terminal ([TerminalColumns = 79]), the Ubuntu logo and
    the lines of an Ubuntu desktop: the first colour bar is merged into a line
    of 82 visible characters and 67 characters of escape sequences; the line
    is cut after [79 + 67] characters, which takes away only the last three
    characters of the closing escape sequence, and what is printed has 83
    visible characters. *)
Theorem colour_bar_exceeds_terminal_width :
  exists EachLine,
    ArcheyOutputList (TerminalColumns 80) Ubuntu_logo
      (ubuntu_result ++ colour_bars) !! 15%nat = Some EachLine
    /\ ANSILen EachLine = (82, 67)
    /\ printed (TerminalColumns 80) EachLine = take 146 EachLine
    /\ fst (ANSILen (printed (TerminalColumns 80) EachLine)) = 83.
Proof. eexists. split; [by vm_compute|]. by vm_compute. Qed.

(** ** The collectors *)

Section AppendOnly.

Context {A B : Type}.

Lemma appends_mret n (a : A) : appends n (mret a).
Proof. intros g. exists []. simpl. rewrite app_nil_r. split; [done|lia]. Qed.

Lemma appends_lift n (o : outcome A) : appends n (lift o).
Proof. intros g. exists []. simpl. rewrite app_nil_r. split; [done|lia]. Qed.

Lemma appends_raise n e : appends n (raise e : M A).
Proof. apply appends_lift. Qed.

Lemma appends_bind n k (m : M A) (f : A -> M B) :
  appends n m -> (forall a, appends k (f a)) -> appends (n + k) (m ≫= f).
Proof.
  intros Hm Hf g. destruct (Hm g) as (l1 & E1 & L1).
  unfold mbind, M_bind. destruct (m g) as [[a|e] g1] eqn:Eg; simpl in *.
  - destruct (Hf a g1) as (l2 & E2 & L2). exists (l1 ++ l2).
    rewrite E2, E1, length_app, app_assoc. split; [done|lia].
  - exists l1. split; [done|lia].
Qed.

End AppendOnly.

Lemma appends_get n : appends n get.
Proof. intros g. exists []. simpl. rewrite app_nil_r. split; [done|lia]. Qed.

Lemma appends_output n key value : appends (S n) (output key value).
Proof. intros g. exists [output_line (DistroID g) key value]. simpl. split; [done|lia]. Qed.

Lemma appends_IdentifyTerminal w n : appends n (IdentifyTerminal w).
Proof.
  intros g. exists []. rewrite app_nil_r. split; [|simpl; lia].
  unfold IdentifyTerminal, mbind, M_bind, get, lift.
  case_bool_decide; [|done]. by destruct (terminal_process_name _ _).
Qed.

(** One step through the body of a collector. *)
Ltac appends_step :=
  lazymatch goal with
  | |- appends _ (mret _) => apply appends_mret
  | |- appends _ get => apply appends_get
  | |- appends _ (lift _) => apply appends_lift
  | |- appends _ (raise _) => apply appends_raise
  | |- appends _ (output _ _) => apply appends_output
  | |- appends _ (IdentifyTerminal _) => apply appends_IdentifyTerminal
  | |- appends 0 (_ ≫= _) => apply (appends_bind 0 0); [|intros ?]
  | |- appends 1 (_ ≫= _) => apply (appends_bind 0 1); [|intros ?]
  | |- appends _ (if ?b then _ else _) => destruct b
  | |- appends _ (match ?x with _ => _ end) => destruct x
  | |- appends _ (let '(_, _) := ?x in _) => destruct x
  end.

Ltac appends_collector := repeat appends_step.

Section CollectorsAppend.

Variable w : World.

Lemma ram_display_appends : appends 1 (ram_display w).
Proof. unfold ram_display. appends_collector. Qed.

Lemma distro_display_appends : appends 1 distro_display.
Proof. unfold distro_display. appends_collector. Qed.

Lemma kernel_display_appends : appends 1 (kernel_display w).
Proof. unfold kernel_display. appends_collector. Qed.

Lemma user_display_appends : appends 1 (user_display w).
Proof. unfold user_display. appends_collector. Qed.

Lemma hostname_display_appends : appends 1 (hostname_display w).
Proof. unfold hostname_display. appends_collector. Qed.

Lemma cpu_display_appends : appends 1 (cpu_display w).
Proof. unfold cpu_display. appends_collector. Qed.

Lemma uptime_display_appends : appends 1 (uptime_display w).
Proof. unfold uptime_display. appends_collector. Qed.

Lemma de_display_appends : appends 1 (de_display w).
Proof. unfold de_display. appends_collector. Qed.

Lemma wm_display_appends : appends 1 (wm_display w).
Proof. unfold wm_display. appends_collector. Qed.

Lemma sh_display_appends : appends 1 (sh_display w).
Proof. unfold sh_display. appends_collector. Qed.

Lemma term_display_appends : appends 1 (term_display w).
Proof. unfold term_display. appends_collector. Qed.

Lemma packages_display_appends : appends 1 (packages_display w).
Proof. unfold packages_display. appends_collector. Qed.

Lemma disk_display_appends : appends 1 (disk_display w).
Proof. unfold disk_display. appends_collector. Qed.

Lemma resolution_display_appends : appends 1 (resolution_display w).
Proof. unfold resolution_display. appends_collector. Qed.

Lemma gpu_display_appends : appends 1 (gpu_display w).
Proof. unfold gpu_display. appends_collector. Qed.

Lemma pimodel_display_appends : appends 1 (pimodel_display w).
Proof. unfold pimodel_display. appends_collector. Qed.

Lemma locals_appends FunctionName func :
  locals w !! FunctionName = Some func -> appends 1 func.
Proof.
  intros H. apply elem_of_list_to_map_2 in H.
  repeat (apply elem_of_cons in H as [[= -> ->]|H];
          [auto using ram_display_appends, distro_display_appends,
             kernel_display_appends, user_display_appends,
             hostname_display_appends, cpu_display_appends,
             uptime_display_appends, de_display_appends, wm_display_appends,
             sh_display_appends, term_display_appends,
             packages_display_appends, disk_display_appends,
             resolution_display_appends, gpu_display_appends,
             pimodel_display_appends|]).
  by apply elem_of_nil in H.
Qed.

Lemma run_attribute_appends EachAttribute :
  appends 1 (run_attribute w EachAttribute).
Proof.
  unfold run_attribute.
  destruct (locals w !! _) as [func|] eqn:E;
    [by eapply locals_appends | apply appends_raise].
Qed.

Lemma run_display_appends attributes :
  appends (length attributes) (run_display w attributes).
Proof.
  induction attributes as [|a rest IH]; [apply appends_mret|].
  apply (appends_bind 1 (length rest)); [apply run_attribute_appends|done].
Qed.

(** Every field of [display] has its function. *)
Lemma display_has_collectors :
  Forall (fun EachAttribute =>
            is_Some (locals w !! (EachAttribute ++ py "_display"))) display.
Proof.
  unfold display.
  repeat (constructor; [eexists; reflexivity|]).
  constructor.
Qed.

End CollectorsAppend.

(** The desktop-environment collector on a host without one, and the Pi
    model collector away from a Raspberry Pi, append nothing. *)
Example collectors_without_a_line :
  result (de_display (host [] [] [] [] [] None) initial_globals).2 = []
  /\ result (pimodel_display (host [] [] [] [] [] None) initial_globals).2 = []
  /\ result (disk_display (host [] [] [] [] [] None)
               (set_Distro FreeBSD None initial_globals)).2 = [].
Proof. repeat split; by vm_compute. Qed.

(** C9. One round of the loop over [display] leaves the lines already in
    [result] in place and appends at most one line, whether the collector
    returns or raises; the whole loop leaves the lines it found in place and
    appends at most one line per field; and every field of [display] has a
    collector. *)
Theorem collectors_append_only (w : World) :
  (forall (EachAttribute : str) (g : Globals), exists lines,
      result (run_attribute w EachAttribute g).2 = result g ++ lines
      /\ (length lines <= 1)%nat)
  /\ (forall g : Globals, exists lines,
        result (run_display w display g).2 = result g ++ lines
        /\ (length lines <= length display)%nat)
  /\ (forall g : Globals,
        take (length (result g)) (result (run_display w display g).2)
        = result g)
  /\ Forall (fun EachAttribute =>
               is_Some (locals w !! (EachAttribute ++ py "_display"))) display.
Proof.
  split; [exact (run_attribute_appends w)|].
  split; [exact (run_display_appends w display)|].
  split; [|exact (display_has_collectors w)].
  intros g. destruct (run_display_appends w display g) as (lines & -> & _).
  by rewrite take_app_length.
Qed.

(** The guard of [kernel_display] holds for every member: the class is not
    one of its members. *)
Lemma Distro_class_is_no_member d :
  py_ne Distro_class (Distro_member d) = true.
Proof. reflexivity. Qed.

(** C10. Whatever the distribution, FreeBSD included, [kernel_display]
    returns and appends exactly one line to [result]: the "Kernel" line with
    the first line of the output of [uname -sr]. *)
Theorem kernel_display_always_appends (w : World) (g : Globals) :
  kernel_display w g
  = (Return (),
     set_result
       (result g
          ++ [output_line (DistroID g) (py "Kernel")
                (GetCommandOutput w [py "uname"; py "-sr"])])
       g)
  /\ py_ne Distro_class (Distro_member (DistroID g)) = true.
Proof. split; reflexivity. Qed.

(** On a FreeBSD host the line is there, in the colour of FreeBSD. *)
Example kernel_display_on_FreeBSD (w : World) :
  result (kernel_display w (set_Distro FreeBSD None initial_globals)).2
  = [redB ++ py "Kernel:" ++ clear ++ py " "
       ++ GetCommandOutput w [py "uname"; py "-sr"]].
Proof. reflexivity. Qed.

(** ** [IdentifyOS] *)

(** Decide the comparisons between literals that are in the goal. *)
Ltac literal_decide :=
  repeat match goal with
  | |- context [bool_decide ?P] =>
      let b := eval vm_compute in (bool_decide P) in
      lazymatch b with
      | true => change (bool_decide P) with true
      | false => change (bool_decide P) with false
      end
  end.

Lemma Kubuntu_case_KDE w d p :
  DesktopEvironmentID w d = py "KDE" ->
  Kubuntu_case w d (py "Ubuntu") (Some p)
  = Return (py "Kubuntu", Some (py "Ku" ++ slice_from p 1)).
Proof. intros H. unfold Kubuntu_case. rewrite H. by literal_decide. Qed.

Lemma Kubuntu_case_other w d OSReleaseID OSReleasePretty :
  OSReleaseID <> py "Ubuntu" ->
  Kubuntu_case w d OSReleaseID OSReleasePretty
  = Return (OSReleaseID, OSReleasePretty).
Proof. intros H. unfold Kubuntu_case. by rewrite bool_decide_eq_false_2. Qed.

Lemma Raspbian_case_other w OSReleaseID OSReleasePretty :
  OSReleaseID <> py "Debian" ->
  Raspbian_case w OSReleaseID OSReleasePretty
  = Return (OSReleaseID, OSReleasePretty).
Proof. intros H. unfold Raspbian_case. by rewrite bool_decide_eq_false_2. Qed.

Lemma Raspbian_case_Pi w p ModelInfo :
  path_exists w (py "/proc/device-tree/model") = true ->
  read_file w (py "/proc/device-tree/model") = Some ModelInfo ->
  contains (py "Raspberry Pi") ModelInfo = true ->
  Raspbian_case w (py "Debian") (Some p)
  = Return (py "Raspbian", Some (py "Rasp" ++ slice_from p 2)).
Proof.
  intros He Hr Hc. unfold Raspbian_case. rewrite He, Hr, Hc.
  by literal_decide.
Qed.

(** Without [uname] nothing is asked of the host and the answer is
    "Undetermined". *)
Lemma IdentifyOS_without_uname w d :
  CheckCommandInstalled w (py "uname") = false ->
  IdentifyOS w d
  = Return (py "Undetermined", Unknown, Some (py "Undetermined")).
Proof.
  intros H. unfold IdentifyOS, raw_identity, tag_architecture. rewrite H.
  unfold base_release. by literal_decide.
Qed.

(** Linux or FreeBSD without the os-release file and without
    [lsb_release]: "Undetermined" with the architecture. *)
Lemma IdentifyOS_without_release_information w d sys :
  CheckCommandInstalled w (py "uname") = true ->
  GetCommandOutput w [py "uname"; py "-s"] = sys ->
  sys ∈ [py "Linux"; py "FreeBSD"] ->
  path_exists w (py "/etc/os-release") = false ->
  CheckCommandInstalled w (py "lsb_release") = false ->
  IdentifyOS w d
  = Return (py "Undetermined", Unknown,
            Some (py "Undetermined " ++ GetCommandOutput w [py "uname"; py "-m"])).
Proof.
  intros Hu Hs Hsys He Hl.
  unfold IdentifyOS, raw_identity, tag_architecture. rewrite Hu, Hs.
  unfold base_release. rewrite He, Hl.
  rewrite (bool_decide_eq_true_2 _ Hsys).
  rewrite bool_decide_eq_false_2; [by literal_decide|].
  intros ->. apply elem_of_cons in Hsys as [E|Hsys];
    [vm_compute in E; discriminate E|].
  apply list_elem_of_singleton in Hsys. vm_compute in Hsys. discriminate Hsys.
Qed.

(** On Darwin a property list that cannot be opened ends [IdentifyOS] with
    the exception. *)
Lemma IdentifyOS_Darwin_without_plist w d :
  CheckCommandInstalled w (py "uname") = true ->
  GetCommandOutput w [py "uname"; py "-s"] = py "Darwin" ->
  SystemVersion_plist w = None ->
  IdentifyOS w d = Raise FileNotFoundError.
Proof.
  intros Hu Hs Hp. unfold IdentifyOS, raw_identity. rewrite Hu, Hs.
  unfold base_release. rewrite Hp. by literal_decide.
Qed.

(** C1. Two hosts on which [IdentifyOS] raises instead of returning: a
    Darwin host whose system version property list cannot be opened, and a
    Linux host whose os-release file has the key [ID] without a value. *)
Theorem IdentifyOS_raises :
  IdentifyOS darwin_without_plist Unknown = Raise FileNotFoundError
  /\ IdentifyOS linux_with_bare_ID Unknown = Raise AttributeError.
Proof. split; by vm_compute. Qed.

(** The pretty name before the special cases, when there is one, is a
    string and not empty. *)
Lemma raw_identity_pretty w OSReleaseID OSReleasePretty :
  raw_identity w = Return (OSReleaseID, OSReleasePretty) ->
  exists p, OSReleasePretty = Some p /\ p <> [].
Proof.
  unfold raw_identity, tag_architecture.
  destruct (CheckCommandInstalled w (py "uname")).
  - destruct (base_release w _) as [[id [p|]]|e]; simpl; [|done..].
    intros [= _ <-]. eexists. split; [done|]. by destruct p.
  - unfold base_release. literal_decide. simpl. intros [= _ <-].
    eexists. split; [done|]. by vm_compute.
Qed.

(** Where [IdentifyOS] does return: the property list is there on Darwin,
    the keys of the os-release file have values, and the device-tree model
    can be read where it exists.  The identity is then the entry of the raw
    identity in [DistroEnumDict], or [Unknown], and the pretty name is a
    string that is not empty. *)
Lemma IdentifyOS_returns w d :
  (GetCommandOutput w [py "uname"; py "-s"] = py "Darwin" ->
   exists info version,
     SystemVersion_plist w = Some info
     /\ info !! py "ProductUserVisibleVersion" = Some version) ->
  dotenv_values w (py "/etc/os-release") !! py "ID" <> Some None ->
  dotenv_values w (py "/etc/os-release") !! py "PRETTY_NAME" <> Some None ->
  (path_exists w (py "/proc/device-tree/model") = true ->
   is_Some (read_file w (py "/proc/device-tree/model"))) ->
  exists OSReleaseID p,
    IdentifyOS w d
    = Return (OSReleaseID, default Unknown (DistroEnumDict !! OSReleaseID),
              Some p)
    /\ p <> [].
Proof.
  intros Hplist Hid Hpretty Hmodel.
  assert (Hraw : exists id p, raw_identity w = Return (id, Some p) /\ p <> []).
  { destruct (raw_identity w) as [[id pretty]|e] eqn:E.
    - destruct (raw_identity_pretty _ _ _ E) as (p & -> & Hp). eauto.
    - exfalso. revert E. unfold raw_identity, tag_architecture.
      destruct (CheckCommandInstalled w (py "uname")) eqn:Hu.
      + assert (exists id p, base_release w
                  (GetCommandOutput w [py "uname"; py "-s"])
                  = Return (id, Some p)) as (id & p & ->); [|done].
        unfold base_release. case_bool_decide as HD.
        * destruct (Hplist HD) as (info & version & -> & ->). eauto.
        * case_bool_decide; [|eauto].
          destruct (path_exists w (py "/etc/os-release"));
            [|destruct (CheckCommandInstalled w (py "lsb_release")); eauto].
          destruct (dotenv_values w _ !! py "ID") as [[v|]|];
            destruct (dotenv_values w _ !! py "PRETTY_NAME") as [[v'|]|];
            simpl; try done; eauto.
      + unfold base_release. by literal_decide. }
  destruct Hraw as (id & p & Hraw & Hp). unfold IdentifyOS. rewrite Hraw.
  cbn [mbind outcome_bind].
  assert (exists id' p', Kubuntu_case w d id (Some p) = Return (id', Some p')
                         /\ p' <> []) as (id' & p' & -> & Hp').
  { unfold Kubuntu_case. destruct (_ && _); [|eauto].
    eexists _, _. split; [done|]. by vm_compute. }
  cbn [mbind outcome_bind].
  assert (exists id'' p'', Raspbian_case w id' (Some p') = Return (id'', Some p'')
                           /\ p'' <> []) as (id'' & p'' & -> & Hp'').
  { unfold Raspbian_case. destruct (bool_decide _); simpl; [|eauto].
    destruct (path_exists w (py "/proc/device-tree/model")) eqn:He; [|eauto].
    destruct (Hmodel eq_refl) as [m ->].
    destruct (contains _ m); [|eauto].
    eexists _, _. split; [done|]. by vm_compute. }
  cbn [mbind outcome_bind]. exists id'', p''. split; [|done].
  by destruct (DistroEnumDict !! id'').
Qed.

(** C3. Linux, an os-release file with [ID=ubuntu] and
    [PRETTY_NAME=Ubuntu 22.04.3 LTS], a desktop environment identified as
    KDE, architecture x86_64: [IdentifyOS] returns the identity Kubuntu and
    the pretty name "Kubuntu 22.04.3 LTS x86_64". *)
Theorem IdentifyOS_Kubuntu_scenario (w : World) (d : Distro) :
  CheckCommandInstalled w (py "uname") = true ->
  GetCommandOutput w [py "uname"; py "-s"] = py "Linux" ->
  GetCommandOutput w [py "uname"; py "-m"] = py "x86_64" ->
  path_exists w (py "/etc/os-release") = true ->
  dotenv_values w (py "/etc/os-release") !! py "ID" = Some (Some (py "ubuntu")) ->
  dotenv_values w (py "/etc/os-release") !! py "PRETTY_NAME"
  = Some (Some (py "Ubuntu 22.04.3 LTS")) ->
  DesktopEvironmentID w d = py "KDE" ->
  IdentifyOS w d
  = Return (py "Kubuntu", Kubuntu, Some (py "Kubuntu 22.04.3 LTS x86_64")).
Proof.
  intros Hu Hs Hm He Hid Hpretty Hde.
  assert (Hraw : raw_identity w
                 = Return (py "Ubuntu", Some (py "Ubuntu 22.04.3 LTS x86_64"))).
  { unfold raw_identity, tag_architecture. rewrite Hu, Hs, Hm.
    unfold base_release. rewrite He, Hid, Hpretty. by literal_decide. }
  unfold IdentifyOS. rewrite Hraw. cbn [mbind outcome_bind].
  rewrite Kubuntu_case_KDE by done. cbn [mbind outcome_bind].
  rewrite Raspbian_case_other by (by vm_compute). by vm_compute.
Qed.

Lemma IdentifyOS_Kubuntu_scenario_witness :
  CheckCommandInstalled kubuntu_host (py "uname") = true
  /\ GetCommandOutput kubuntu_host [py "uname"; py "-s"] = py "Linux"
  /\ DesktopEvironmentID kubuntu_host Unknown = py "KDE"
  /\ IdentifyOS kubuntu_host Unknown
     = Return (py "Kubuntu", Kubuntu, Some (py "Kubuntu 22.04.3 LTS x86_64")).
Proof.
  split; [by vm_compute|]. split; [by vm_compute|]. split; [by vm_compute|].
  apply (IdentifyOS_Kubuntu_scenario kubuntu_host Unknown); by vm_compute.
Defined.

(** The desktop environment is also found through the process list. *)
Example DesktopEvironmentID_from_processes :
  DesktopEvironmentID
    (host [] [] [] [] [Some (py "systemd"); None; Some (py "ksmserver")] None)
    Unknown
  = py "KDE".
Proof. by vm_compute. Qed.

(** C4, as the specification words it, fails on Raspberry Pi OS: the pretty
    name "Debian GNU/Linux 12 (bookworm) aarch64" becomes
    "Raspbian GNU/Linux 12 (bookworm) aarch64", not "Raspebian ...". *)
Lemma Raspbian_replaces_first_character_fails :
  ~ Raspbian_replaces_first_character.
Proof.
  intros H.
  specialize (H raspberry_pi_host Unknown
                (py "Debian GNU/Linux 12 (bookworm) aarch64")
                (py "Raspberry Pi 4 Model B Rev 1.4")).
  assert (E : IdentifyOS raspberry_pi_host Unknown
              = Return (py "Raspbian", Raspbian,
                        Some (py "Raspbian GNU/Linux 12 (bookworm) aarch64")))
    by (by vm_compute).
  rewrite E in H. specialize (H ltac:(by vm_compute) ltac:(by vm_compute)
                                ltac:(by vm_compute) ltac:(by vm_compute)).
  vm_compute in H. discriminate H.
Qed.

(** C4, amended.  Whenever the raw identity is "Debian" and the device-tree
    model file exists with content containing "Raspberry Pi", [IdentifyOS]
    returns the identity Raspbian, and the pretty name is "Rasp" followed by
    the original pretty name without its first two characters. *)
Theorem IdentifyOS_Raspbian_rewrite (w : World) (d : Distro)
    (p ModelInfo : str) :
  raw_identity w = Return (py "Debian", Some p) ->
  path_exists w (py "/proc/device-tree/model") = true ->
  read_file w (py "/proc/device-tree/model") = Some ModelInfo ->
  contains (py "Raspberry Pi") ModelInfo = true ->
  IdentifyOS w d
  = Return (py "Raspbian", Raspbian, Some (py "Rasp" ++ slice_from p 2)).
Proof.
  intros Hraw He Hr Hc. unfold IdentifyOS. rewrite Hraw.
  cbn [mbind outcome_bind].
  rewrite Kubuntu_case_other by (by vm_compute). cbn [mbind outcome_bind].
  rewrite (Raspbian_case_Pi _ _ _ He Hr Hc). by vm_compute.
Qed.

Lemma IdentifyOS_Raspbian_rewrite_witness :
  raw_identity raspberry_pi_host
  = Return (py "Debian", Some (py "Debian GNU/Linux 12 (bookworm) aarch64"))
  /\ IdentifyOS raspberry_pi_host Unknown
     = Return (py "Raspbian", Raspbian,
               Some (py "Rasp"
                     ++ slice_from (py "Debian GNU/Linux 12 (bookworm) aarch64") 2)).
Proof.
  split; [by vm_compute|].
  apply (IdentifyOS_Raspbian_rewrite raspberry_pi_host Unknown
           (py "Debian GNU/Linux 12 (bookworm) aarch64")
           (py "Raspberry Pi 4 Model B Rev 1.4")); by vm_compute.
Defined.

(** The scenario of the specification for macOS. *)
Example IdentifyOS_Catalina :
  IdentifyOS
    (host [ installed "uname";
            ([py "uname"; py "-s"], py "Darwin" ++ [NEWLINE]);
            ([py "uname"; py "-m"], py "x86_64" ++ [NEWLINE]) ]
          [] [] [] []
          (Some [(py "ProductUserVisibleVersion", py "10.15.7")]))
    Unknown
  = Return (py "MacOS", MacOS, Some (py "macOS Catalina (10.15.7) x86_64")).
Proof. by vm_compute. Qed.

(** ** The whole run *)

(** The scenario of the specification for a narrow terminal: 60 columns,
    Ubuntu under KDE.  Whatever the table of logos, what is printed is an
    empty line, then the fifteen collected lines and the two colour bars,
    each cut for 59 columns, and an empty line; no logo line is among
    them. *)
Example main_on_60_columns (DefineDistroLogo : Distro -> list str) :
  exists g,
    main (with_stty (py "24 60" ++ [NEWLINE]) kubuntu_host) DefineDistroLogo
      [py "archey"] initial_globals
    = (Return ([] :: (printed 59 <$> result g) ++ [[]]), g)
    /\ DistroID g = Kubuntu
    /\ DistroTitle g = Some (py "Kubuntu 22.04.3 LTS x86_64")
    /\ length (result g) = 17%nat
    /\ drop 15 (result g) = colour_bars
    /\ result g !! 2%nat
       = Some (cyanB ++ py "OS:" ++ clear ++ py " Kubuntu 22.04.3 LTS x86_64")
    /\ result g !! 6%nat
       = Some (cyanB ++ py "Desktop Environment:" ++ clear ++ py " KDE").
Proof.
  exists (main (with_stty (py "24 60" ++ [NEWLINE]) kubuntu_host)
            DefineDistroLogo [py "archey"] initial_globals).2.
  by vm_compute.
Qed.

(** A collector that raises ends the run; the lines collected before it are
    still in [result]. *)
Example run_display_stops_at_exception :
  run_display
    (host [] [] [] [] [] None) display initial_globals
  = (Raise AttributeError,
     set_GlobalTerminal (py "gnome-terminal-server")
       (set_result
          [ output_line Unknown (py "User") (py "ada");
            output_line Unknown (py "Hostname") [];
            output_line Unknown (py "OS") (py "Unknown");
            output_line Unknown (py "Kernel") [];
            output_line Unknown (py "Uptime") (py "0 days, 3 hours, 12 minutes.");
            output_line Unknown (py "Window Manager")
              (py "Undetermined (xprop not installed)") ]
          initial_globals)).
Proof. by vm_compute. Qed.

(** The scenario of the specification for one merged line: a logo line of
    twelve visible characters in a logo twenty columns wide, beside the line
    "OS: Linux". *)
Example merge_one_line :
  merge [blueB ++ py "############"; py "####################"]
        [py "OS: Linux"]
  = [ blueB ++ py "############" ++ py "        " ++ py "    " ++ py "OS: Linux";
      py "####################" ++ py "    " ].
Proof. by vm_compute. Qed.

(** * Properties of the further functions *)

(** Closed decidable statements are settled by evaluation. *)
Ltac by_evaluation := apply (bool_decide_unpack _); vm_compute; exact I.

(** ** Running a command *)

Lemma count_nonneg s c : 0 <= count s c.
Proof. induction s as [|x s IH]; simpl; [lia|destruct (x =? c)%N; lia]. Qed.

Lemma count_pos s c : 0 < count s c <-> c ∈ s.
Proof.
  induction s as [|x s IH]; cbn [count].
  - split; [lia|]. by intros ?%elem_of_nil.
  - pose proof (count_nonneg s c). rewrite elem_of_cons.
    destruct (N.eqb_spec x c) as [->|Hne].
    + split; [by left|lia].
    + rewrite Z.add_0_l, IH. split; [by right|]. by intros [?|?].
Qed.

Lemma split_length s c : len (split s c) = 1 + count s c.
Proof.
  induction s as [|x s IH]; [done|]. cbn [split count].
  destruct (x =? c)%N.
  - rewrite len_cons, IH. lia.
  - destruct (split s c) as [|h r] eqn:E.
    + pose proof (count_nonneg s c). unfold len in *. simpl in *. lia.
    + rewrite !len_cons in *. lia.
Qed.

Lemma split_nonempty s c : split s c <> [].
Proof.
  intros E. pose proof (split_length s c) as H. rewrite E in H.
  assert (0 <= count s c) by (clear; induction s as [|x s IH]; simpl;
    [lia|destruct (x =? c)%N; lia]).
  unfold len in H. simpl in H. lia.
Qed.

Lemma join_split s c : join [c] (split s c) = s.
Proof.
  induction s as [|x s IH]; [done|]. cbn [split].
  destruct (N.eqb_spec x c) as [->|Hne].
  - pose proof (split_nonempty s c).
    destruct (split s c) as [|h r] eqn:E; [done|].
    change (join [c] ([] :: h :: r)) with ([] ++ [c] ++ join [c] (h :: r)).
    by rewrite IH.
  - pose proof (split_nonempty s c).
    destruct (split s c) as [|h r] eqn:E; [done|].
    rewrite <- IH. by destruct r.
Qed.

Lemma split_no_separator s c piece : piece ∈ split s c -> c ∉ piece.
Proof.
  revert piece. induction s as [|x s IH]; intros piece; cbn [split].
  - intros ->%list_elem_of_singleton. apply not_elem_of_nil.
  - destruct (N.eqb_spec x c) as [->|Hne].
    + intros [->|H]%elem_of_cons; [apply not_elem_of_nil|by apply IH].
    + destruct (split s c) as [|h r] eqn:E.
      * intros ->%list_elem_of_singleton.
        intros [->|H]%elem_of_cons; [done|by apply not_elem_of_nil in H].
      * intros [->|H]%elem_of_cons.
        -- intros [->|H]%elem_of_cons; [done|].
           revert H. apply IH. by left.
        -- apply IH. by right.
Qed.

(** X1. CheckCommandInstalled reports a command as installed exactly when
    what `which` prints for it contains a newline character. *)
Theorem CheckCommandInstalled_newline (w : World) (CommandName : str) :
  CheckCommandInstalled w CommandName
  = bool_decide (NEWLINE ∈ popen w [py "which"; CommandName]).
Proof.
  unfold CheckCommandInstalled. cbv zeta. rewrite split_length.
  apply bool_decide_ext. rewrite <- count_pos. lia.
Qed.

(** X2. CountCommandOutput returns the number of newline characters in the
    output of the command when the command is installed and 0 when it is
    not; it is never negative. *)
Theorem CountCommandOutput_counts_newlines (w : World) (CommandList : list str) :
  CountCommandOutput w CommandList
  = (if CheckCommandInstalled w (default [] (head CommandList))
     then count (popen w CommandList) NEWLINE else 0)
  /\ 0 <= CountCommandOutput w CommandList.
Proof.
  unfold CountCommandOutput.
  destruct (CheckCommandInstalled w _); [|done].
  rewrite split_length. pose proof (count_nonneg (popen w CommandList) NEWLINE).
  split; lia.
Qed.

(** X3. For an installed command, joining the list of GetCommandOutputList
    with newlines gives back the output of the command; the first element
    of the list is what GetCommandOutput returns, the list has one element
    more than CountCommandOutput counts, and no element contains a
    newline. *)
Theorem GetCommandOutputList_round_trip (w : World) (CommandList : list str) :
  CheckCommandInstalled w (default [] (head CommandList)) = true ->
  join [NEWLINE] (GetCommandOutputList w CommandList) = popen w CommandList
  /\ head (GetCommandOutputList w CommandList)
     = Some (GetCommandOutput w CommandList)
  /\ len (GetCommandOutputList w CommandList)
     = CountCommandOutput w CommandList + 1
  /\ Forall (fun line => NEWLINE ∉ line) (GetCommandOutputList w CommandList).
Proof.
  intros H. unfold GetCommandOutputList, GetCommandOutput, CountCommandOutput.
  rewrite H. split; [apply join_split|].
  pose proof (split_nonempty (popen w CommandList) NEWLINE).
  split; [by destruct (split _ _)|]. split; [lia|].
  apply Forall_forall. intros line. apply split_no_separator.
Qed.

Lemma GetCommandOutputList_round_trip_witness :
  CheckCommandInstalled kubuntu_host (py "uname") = true
  /\ GetCommandOutputList kubuntu_host [py "uname"; py "-s"] = [py "Linux"; []]
  /\ join [NEWLINE] (GetCommandOutputList kubuntu_host [py "uname"; py "-s"])
     = popen kubuntu_host [py "uname"; py "-s"]
  /\ head (GetCommandOutputList kubuntu_host [py "uname"; py "-s"])
     = Some (GetCommandOutput kubuntu_host [py "uname"; py "-s"])
  /\ len (GetCommandOutputList kubuntu_host [py "uname"; py "-s"])
     = CountCommandOutput kubuntu_host [py "uname"; py "-s"] + 1
  /\ Forall (fun line => NEWLINE ∉ line)
       (GetCommandOutputList kubuntu_host [py "uname"; py "-s"]).
Proof.
  split; [by vm_compute|]. split; [by vm_compute|].
  apply (GetCommandOutputList_round_trip kubuntu_host [py "uname"; py "-s"]).
  by vm_compute.
Defined.

(** ** What a space does to the grammar *)

Section SpaceBounded.

Lemma Literal_space_bounded c : c <> SPACE -> space_bounded (Literal c).
Proof.
  intros Hc [|x s] t; unfold Literal; cbn [app].
  - destruct (N.eqb_spec SPACE c); [congruence|done].
  - by destruct (x =? c)%N.
Qed.

Lemma oneOf_space_bounded chars :
  chars SPACE = false -> space_bounded (oneOf chars).
Proof.
  intros Hc [|x s] t; unfold oneOf; cbn [app].
  - by rewrite Hc.
  - by destruct (chars x).
Qed.

Lemma skip_while_space chars s t :
  chars SPACE = false ->
  skip_while chars (s ++ SPACE :: t) = skip_while chars s ++ SPACE :: t.
Proof.
  intros Hc. induction s as [|x s IH]; cbn [app skip_while].
  - by rewrite Hc.
  - by destruct (chars x).
Qed.

Lemma Word_space_bounded chars :
  chars SPACE = false -> space_bounded (Word chars).
Proof.
  intros Hc [|x s] t; unfold Word; cbn [app].
  - by rewrite Hc.
  - destruct (chars x); [|done]. cbn. by rewrite skip_while_space.
Qed.

Lemma And_space_bounded p q :
  space_bounded p -> space_bounded q -> space_bounded (And p q).
Proof.
  intros Hp Hq s t. unfold And. rewrite Hp.
  destruct (p s) as [r|]; simpl; [apply Hq|done].
Qed.

Lemma Optional_space_bounded p : space_bounded p -> space_bounded (Optional p).
Proof. intros Hp s t. unfold Optional. rewrite Hp. by destruct (p s). Qed.

Lemma ZeroOrMore_space_bounded p :
  space_bounded p -> consuming p -> space_bounded (ZeroOrMore p).
Proof.
  intros Hs Hc s. remember (length s) as n eqn:Hn.
  revert s Hn. induction (lt_wf n) as [n _ IH]; intros s -> t.
  rewrite !ZeroOrMore_unfold by done. rewrite Hs.
  destruct (p s) as [r|] eqn:E; simpl; [|done].
  apply (IH (length r)); [by apply Hc|done].
Qed.

End SpaceBounded.

Lemma escapeSeq_space_bounded : space_bounded escapeSeq.
Proof.
  unfold escapeSeq, Combine, delimitedList, integer.
  repeat first
    [ apply And_space_bounded | apply Optional_space_bounded
    | apply ZeroOrMore_space_bounded
    | apply Literal_space_bounded; done | apply oneOf_space_bounded; done
    | apply Word_space_bounded; done ].
  apply And_consuming_l;
    [apply Literal_consuming | apply consuming_shrinking, Word_consuming].
Qed.

(** The scan of a string with a space in it is the scan of what is before
    the space, the space, and the scan of what is after it. *)
Lemma transformString_space p s t :
  space_bounded p -> p [] = None ->
  transformString_Suppress p (s ++ SPACE :: t)
  = transformString_Suppress p s ++ SPACE :: transformString_Suppress p t.
Proof.
  intros Hs Hnil. remember (length s) as n eqn:Hn. revert s Hn.
  induction (lt_wf n) as [n _ IH]; intros s ->.
  destruct s as [|c s].
  - cbn [app]. rewrite transformString_cons.
    pose proof (Hs [] t) as H. rewrite Hnil in H. cbn in H. by rewrite H.
  - rewrite <- app_comm_cons, !transformString_cons.
    rewrite (app_comm_cons s), Hs.
    destruct (p (c :: s)) as [r|] eqn:E; cbn [fmap option_fmap option_map].
    + assert (Hb : (length (r ++ SPACE :: t)
                    <? length ((c :: s) ++ SPACE :: t))%nat
                   = (length r <? length (c :: s))%nat).
      { apply Bool.eq_iff_eq_true. rewrite !Nat.ltb_lt, !length_app.
        cbn [length]. lia. }
      rewrite Hb.
      destruct (Nat.ltb_spec (length r) (length (c :: s))) as [Hlt|Hge].
      * apply (IH (length r)); [done|done].
      * cbn [app]. f_equal. apply (IH (length s)); simpl; [lia|done].
    + cbn [app]. f_equal. apply (IH (length s)); simpl; [lia|done].
Qed.

Lemma NonANSIString_space s t :
  NonANSIString (s ++ SPACE :: t) = NonANSIString s ++ SPACE :: NonANSIString t.
Proof.
  apply transformString_space;
    [apply escapeSeq_space_bounded | apply escapeSeq_nil].
Qed.

Lemma NonANSIString_spaces_between s k t :
  NonANSIString (s ++ replicate k SPACE ++ t)
  = NonANSIString s ++ replicate k SPACE ++ NonANSIString t
  \/ k = O.
Proof.
  destruct k as [|k]; [by right|left]. revert s.
  induction k as [|k IH]; intros s.
  - cbn [replicate app]. apply NonANSIString_space.
  - change (replicate (S (S k)) SPACE ++ t)
      with (SPACE :: (replicate (S k) SPACE ++ t)).
    rewrite NonANSIString_space.
    specialize (IH []). cbn [app] in IH. rewrite IH.
    change (NonANSIString []) with (@nil N). done.
Qed.

(** ** Plain text and the lines of [output] *)

(** Text without the escape character goes through the scan unchanged. *)
Lemma NonANSIString_plain_prefix s t :
  ESC ∉ s -> NonANSIString (s ++ t) = s ++ NonANSIString t.
Proof.
  unfold NonANSIString. induction s as [|c s IH]; intros H; [done|].
  apply not_elem_of_cons in H as [Hc Hs].
  cbn [app]. rewrite transformString_cons, escapeSeq_visible.
  - f_equal. by apply IH.
  - apply N.eqb_neq. congruence.
Qed.

Lemma NonANSIString_escape_prefix params final t :
  valid_segment (Escape params final) = true ->
  NonANSIString (render_segment (Escape params final) ++ t) = NonANSIString t.
Proof.
  intros H. unfold NonANSIString.
  pose proof (escapeSeq_render params final t H) as E.
  cbn [render_segment app] in *. rewrite transformString_cons, E.
  destruct (Nat.ltb_spec (length t)
              (length (ESC :: 91%N :: (join [59%N] params ++ [final]) ++ t)))
    as [_|Hge]; [done|].
  simpl in Hge. rewrite length_app in Hge. lia.
Qed.

(** X4. For a string without the escape character, ANSILen returns the
    length of the string and 0, and ANSIljust pads like str.ljust. *)
Theorem ANSILen_plain_text (s : str) (n : Z) :
  ESC ∉ s ->
  ANSILen s = (len s, 0) /\ ANSIljust s n = ljust s n.
Proof.
  intros H.
  assert (E : NonANSIString s = s).
  { pose proof (NonANSIString_plain_prefix s [] H) as E.
    by rewrite !app_nil_r in E. }
  assert (E' : ANSILen s = (len s, 0)).
  { unfold ANSILen. rewrite E. f_equal. lia. }
  split; [done|]. unfold ANSIljust. rewrite E'. simpl. f_equal. lia.
Qed.

Lemma ANSILen_plain_text_witness :
  (ESC ∉ py "Kernel")
  /\ ANSILen (py "Kernel") = (len (py "Kernel"), 0)
  /\ ANSIljust (py "Kernel") 10 = ljust (py "Kernel") 10.
Proof.
  split; [by_evaluation|].
  apply (ANSILen_plain_text (py "Kernel") 10). by_evaluation.
Defined.

Lemma DistroColour_escape d :
  exists params,
    DistroColour d = render_segment (Escape params 109%N)
    /\ valid_segment (Escape params 109%N) = true.
Proof.
  destruct d;
    first [ by exists [py "1"; py "34"] | by exists [py "0"; py "37"]
          | by exists [py "1"; py "31"] | by exists [py "1"; py "36"]
          | by exists [py "1"; py "32"] | by exists [py "0"; py "33"] ].
Qed.

Lemma output_line_eq d key value :
  output_line d key value
  = DistroColour d ++ key ++ py ":" ++ clear ++ py " " ++ value.
Proof. reflexivity. Qed.

(** X5. The line that output appends for a key without the escape
    character shows as the key, a colon, a space and the visible text of
    the value: its visible length is len(key) + 2 + the visible length of
    the value, and its escape-sequence characters are those of the label
    colour, the four of the reset sequence and those of the value. *)
Theorem output_line_visible_text (d : Distro) (key value : str) :
  ESC ∉ key ->
  NonANSIString (output_line d key value)
  = key ++ py ": " ++ NonANSIString value
  /\ fst (ANSILen (output_line d key value))
     = len key + 2 + fst (ANSILen value)
  /\ snd (ANSILen (output_line d key value))
     = len (DistroColour d) + 4 + snd (ANSILen value).
Proof.
  intros Hkey.
  assert (E : NonANSIString (output_line d key value)
              = key ++ py ": " ++ NonANSIString value).
  { rewrite output_line_eq.
    destruct (DistroColour_escape d) as (params & -> & Hv).
    rewrite NonANSIString_escape_prefix by done.
    rewrite NonANSIString_plain_prefix by done.
    change (py ":" ++ clear ++ py " " ++ value)
      with ([58%N] ++ render_segment (Escape [py "0"] 109%N)
              ++ [] ++ SPACE :: value).
    rewrite (NonANSIString_plain_prefix [58%N])
      by (intros H%list_elem_of_singleton; discriminate H).
    rewrite NonANSIString_escape_prefix by done.
    by rewrite NonANSIString_space. }
  split; [done|]. unfold ANSILen. cbn [fst snd]. rewrite E.
  rewrite output_line_eq. repeat rewrite !len_app.
  change (len (py ": ")) with 2. change (len (py ":")) with 1.
  change (len (py " ")) with 1. change (len clear) with 4.
  split; lia.
Qed.

Lemma output_line_visible_text_witness :
  NonANSIString (output_line Ubuntu (py "RAM") (greenB ++ py "3012 MB" ++ clear))
  = py "RAM" ++ py ": " ++ NonANSIString (greenB ++ py "3012 MB" ++ clear)
  /\ fst (ANSILen (output_line Ubuntu (py "RAM")
                     (greenB ++ py "3012 MB" ++ clear)))
     = len (py "RAM") + 2 + fst (ANSILen (greenB ++ py "3012 MB" ++ clear))
  /\ snd (ANSILen (output_line Ubuntu (py "RAM")
                     (greenB ++ py "3012 MB" ++ clear)))
     = len (DistroColour Ubuntu) + 4
       + snd (ANSILen (greenB ++ py "3012 MB" ++ clear)).
Proof.
  apply (output_line_visible_text Ubuntu (py "RAM")
           (greenB ++ py "3012 MB" ++ clear)).
  by_evaluation.
Defined.

(** ** The merged lines *)

Lemma merge_zip_with (LogoOutputList result : list str) :
  merge LogoOutputList result
  = zip_with
      (fun EachLogo EachData =>
         ANSIljust EachLogo (MinLogoWidth LogoOutputList)
         ++ py "    " ++ EachData)
      (LogoOutputList
         ++ replicate (length result - length LogoOutputList)%nat [])
      (result ++ replicate (length LogoOutputList - length result)%nat []).
Proof.
  unfold merge. rewrite equalize_eq, MinLogoWidth_padded.
  generalize (LogoOutputList
                ++ replicate (length result - length LogoOutputList)%nat []).
  generalize (result
                ++ replicate (length LogoOutputList - length result)%nat []).
  intros ds ls. revert ds.
  induction ls as [|l ls IH]; intros [|d ds]; simpl; try done.
  f_equal. apply IH.
Qed.

Lemma padded_lookup (lines : list str) n i x :
  (lines ++ replicate n []) !! i = Some x -> x = default [] (lines !! i).
Proof.
  intros H. destruct (lines !! i) as [y|] eqn:E.
  - rewrite (lookup_app_l_Some _ _ _ _ E) in H. by injection H as <-.
  - apply lookup_ge_None in E. rewrite lookup_app_r in H by done.
    apply lookup_replicate in H as [-> _]. done.
Qed.

Lemma ANSIljust_eq s n :
  ANSIljust s n = s ++ replicate (Z.to_nat (n - fst (ANSILen s))) SPACE.
Proof. unfold ANSIljust, ljust. do 2 f_equal. simpl. lia. Qed.

Lemma MinLogoWidth_nonneg LogoOutputList : 0 <= MinLogoWidth LogoOutputList.
Proof. rewrite MinLogoWidth_foldl. by apply widen_nonneg. Qed.

(** C8. The logo is skipped exactly below the threshold of 70, in the
    width that the program works with (TerminalColumns, which line 1644
    sets to the columns of the terminal minus one): for every
    TerminalColumns below 70 the output list is the data lines alone, as
    they are; for every TerminalColumns of at least 70 it is the logo merged
    beside the data, that is, as many lines as the longer of the two lists
    has, each of them the logo line padded to MinLogoWidth, four spaces and
    the data line (a line missing from the shorter list counts as empty). *)
Theorem logo_threshold (TerminalColumns : Z) (LogoOutputList result : list str) :
  (TerminalColumns < 70 ->
   ArcheyOutputList TerminalColumns LogoOutputList result = result)
  /\ (70 <= TerminalColumns ->
      ArcheyOutputList TerminalColumns LogoOutputList result
      = merge LogoOutputList result
      /\ length (ArcheyOutputList TerminalColumns LogoOutputList result)
         = Nat.max (length LogoOutputList) (length result)
      /\ forall (i : nat) (EachLine : str),
           ArcheyOutputList TerminalColumns LogoOutputList result !! i
           = Some EachLine ->
           EachLine
           = ANSIljust (default [] (LogoOutputList !! i))
               (MinLogoWidth LogoOutputList)
             ++ py "    " ++ default [] (result !! i)).
Proof.
  unfold ArcheyOutputList. split; intros H.
  - by destruct (Z.ltb_spec TerminalColumns 70); [|lia].
  - destruct (Z.ltb_spec TerminalColumns 70); [lia|].
    split; [done|]. rewrite merge_zip_with. split.
    + rewrite length_zip_with, !length_app, !length_replicate. lia.
    + intros i EachLine Hi.
      apply lookup_zip_with_Some in Hi as (x & y & -> & Hx & Hy).
      apply padded_lookup in Hx. apply padded_lookup in Hy. by subst x y.
Qed.

(** At 69 the seventeen lines of an Ubuntu desktop are the output; at 70
    the twenty lines of the logo are, beginning with the logo. *)
Lemma logo_threshold_witness :
  ArcheyOutputList 69 Ubuntu_logo (ubuntu_result ++ colour_bars)
  = ubuntu_result ++ colour_bars
  /\ length (ArcheyOutputList 70 Ubuntu_logo (ubuntu_result ++ colour_bars))
     = 20%nat
  /\ ArcheyOutputList 70 Ubuntu_logo (ubuntu_result ++ colour_bars) !! 2%nat
     = Some (ANSIljust (redB ++ py "         -+ssssssssssssssssssyyssss+-")
               (MinLogoWidth Ubuntu_logo)
             ++ py "    "
             ++ output_line Ubuntu (py "OS") (py "Ubuntu 22.04.3 LTS x86_64")).
Proof.
  destruct (logo_threshold 69 Ubuntu_logo (ubuntu_result ++ colour_bars))
    as [Hnarrow _].
  destruct (logo_threshold 70 Ubuntu_logo (ubuntu_result ++ colour_bars))
    as [_ Hwide].
  split; [apply Hnarrow; lia|].
  destruct Hwide as (_ & Hlen & Hline); [lia|].
  split; [rewrite Hlen; reflexivity|].
  destruct (ArcheyOutputList 70 Ubuntu_logo (ubuntu_result ++ colour_bars)
              !! 2%nat) as [EachLine|] eqn:E.
  - f_equal. apply (Hline 2%nat EachLine E).
  - apply lookup_ge_None in E. rewrite Hlen in E. vm_compute in E. lia.
Defined.

(** X6. Every line of the merged output is the logo line, then
    MinLogoWidth minus the visible length of the logo line plus 4 spaces,
    then the data line (a line missing from the shorter list counts as
    empty); removing the escape sequences acts on the logo part and the
    data part separately, so the data starts after MinLogoWidth + 4
    visible characters on every line. *)
Theorem merged_line_alignment (LogoOutputList result : list str)
    (i : nat) (EachLine : str) :
  merge LogoOutputList result !! i = Some EachLine ->
  exists gap : nat,
    Z.of_nat gap
    = MinLogoWidth LogoOutputList
      - fst (ANSILen (default [] (LogoOutputList !! i))) + 4
    /\ EachLine
       = default [] (LogoOutputList !! i) ++ replicate gap SPACE
         ++ default [] (result !! i)
    /\ NonANSIString EachLine
       = NonANSIString (default [] (LogoOutputList !! i))
         ++ replicate gap SPACE
         ++ NonANSIString (default [] (result !! i))
    /\ fst (ANSILen EachLine)
       = MinLogoWidth LogoOutputList + 4
         + fst (ANSILen (default [] (result !! i))).
Proof.
  rewrite merge_zip_with. intros H.
  apply lookup_zip_with_Some in H as (x & y & -> & Hx & Hy).
  apply padded_lookup in Hx. apply padded_lookup in Hy. subst x y.
  set (l := default [] (LogoOutputList !! i)).
  set (d := default [] (result !! i)).
  assert (Hl : fst (ANSILen l) <= MinLogoWidth LogoOutputList).
  { subst l. destruct (LogoOutputList !! i) as [x|] eqn:E.
    - apply MinLogoWidth_bounds. by eapply list_elem_of_lookup_2.
    - apply MinLogoWidth_nonneg. }
  exists (Z.to_nat (MinLogoWidth LogoOutputList - fst (ANSILen l)) + 4)%nat.
  assert (E : ANSIljust l (MinLogoWidth LogoOutputList) ++ py "    " ++ d
              = l ++ replicate
                       (Z.to_nat (MinLogoWidth LogoOutputList
                                  - fst (ANSILen l)) + 4) SPACE ++ d).
  { rewrite ANSIljust_eq, replicate_add, <- !app_assoc. done. }
  split; [lia|]. split; [done|].
  assert (E' : NonANSIString
                 (ANSIljust l (MinLogoWidth LogoOutputList) ++ py "    " ++ d)
               = NonANSIString l
                 ++ replicate
                      (Z.to_nat (MinLogoWidth LogoOutputList
                                 - fst (ANSILen l)) + 4) SPACE
                 ++ NonANSIString d).
  { rewrite E. destruct (NonANSIString_spaces_between l
      (Z.to_nat (MinLogoWidth LogoOutputList - fst (ANSILen l)) + 4) d);
      [done|lia]. }
  split; [done|]. unfold ANSILen at 1. cbn [fst]. rewrite E'.
  rewrite !len_app, len_replicate. simpl in *. lia.
Qed.

Lemma merged_line_alignment_witness :
  exists gap : nat,
    Z.of_nat gap
    = MinLogoWidth Ubuntu_logo
      - fst (ANSILen (default [] (Ubuntu_logo !! 3%nat))) + 4
    /\ default [] (merge Ubuntu_logo ubuntu_result !! 3%nat)
       = default [] (Ubuntu_logo !! 3%nat) ++ replicate gap SPACE
         ++ default [] (ubuntu_result !! 3%nat)
    /\ NonANSIString (default [] (merge Ubuntu_logo ubuntu_result !! 3%nat))
       = NonANSIString (default [] (Ubuntu_logo !! 3%nat))
         ++ replicate gap SPACE
         ++ NonANSIString (default [] (ubuntu_result !! 3%nat))
    /\ fst (ANSILen (default [] (merge Ubuntu_logo ubuntu_result !! 3%nat)))
       = MinLogoWidth Ubuntu_logo + 4
         + fst (ANSILen (default [] (ubuntu_result !! 3%nat))).
Proof.
  apply (merged_line_alignment Ubuntu_logo ubuntu_result 3
           (default [] (merge Ubuntu_logo ubuntu_result !! 3%nat))).
  by vm_compute.
Defined.

(** ** The globals that the collectors leave alone *)

Section KeepsIdentity.

Context {A B : Type}.

Lemma keeps_mret (a : A) : keeps_identity (mret a).
Proof. by intros g. Qed.

Lemma keeps_lift (o : outcome A) : keeps_identity (lift o).
Proof. by intros g. Qed.

Lemma keeps_raise e : keeps_identity (raise e : M A).
Proof. by intros g. Qed.

Lemma keeps_bind (m : M A) (f : A -> M B) :
  keeps_identity m -> (forall a, keeps_identity (f a)) ->
  keeps_identity (m ≫= f).
Proof.
  intros Hm Hf g. destruct (Hm g) as (D1 & T1 & G1).
  unfold mbind, M_bind. destruct (m g) as [[a|e] g1] eqn:Eg; simpl in *.
  - destruct (Hf a g1) as (D2 & T2 & G2).
    split; [congruence|]. split; [congruence|].
    intros H. rewrite G2; [by apply G1|]. by rewrite G1.
  - done.
Qed.

End KeepsIdentity.

Lemma keeps_get : keeps_identity get.
Proof. by intros g. Qed.

Lemma keeps_output key value : keeps_identity (output key value).
Proof. by intros g. Qed.

Lemma keeps_IdentifyTerminal w : keeps_identity (IdentifyTerminal w).
Proof.
  intros g. unfold IdentifyTerminal, mbind, M_bind, get, lift.
  case_bool_decide as HG; [|done].
  destruct (terminal_process_name _ _); simpl; [|done].
  split; [done|]. split; [done|]. by intros H.
Qed.

Ltac keeps_step :=
  lazymatch goal with
  | |- keeps_identity (mret _) => apply keeps_mret
  | |- keeps_identity get => apply keeps_get
  | |- keeps_identity (lift _) => apply keeps_lift
  | |- keeps_identity (raise _) => apply keeps_raise
  | |- keeps_identity (output _ _) => apply keeps_output
  | |- keeps_identity (IdentifyTerminal _) => apply keeps_IdentifyTerminal
  | |- keeps_identity (_ ≫= _) => apply keeps_bind; [|intros ?]
  | |- keeps_identity (if ?b then _ else _) => destruct b
  | |- keeps_identity (match ?x with _ => _ end) => destruct x
  | |- keeps_identity (let '(_, _) := ?x in _) => destruct x
  end.

Lemma locals_keep_identity w FunctionName func :
  locals w !! FunctionName = Some func -> keeps_identity func.
Proof.
  intros H. apply elem_of_list_to_map_2 in H.
  repeat (apply elem_of_cons in H as [[= -> ->]|H];
          [unfold ram_display, distro_display, kernel_display, user_display,
             hostname_display, cpu_display, uptime_display, de_display,
             wm_display, sh_display, term_display, packages_display,
             disk_display, resolution_display, gpu_display, pimodel_display;
           solve [repeat keeps_step]|]).
  by apply elem_of_nil in H.
Qed.

Lemma run_attribute_keeps_identity w EachAttribute :
  keeps_identity (run_attribute w EachAttribute).
Proof.
  unfold run_attribute.
  destruct (locals w !! _) as [func|] eqn:E;
    [by eapply locals_keep_identity | apply keeps_raise].
Qed.

(** X7. Running the collectors of any list of display fields leaves
    DistroID and DistroTitle as they are, and leaves GlobalTerminal as it
    is once it is no longer "Unset", whether the run returns or raises. *)
Theorem run_display_keeps_identity (w : World) (attributes : list str) :
  keeps_identity (run_display w attributes).
Proof.
  induction attributes as [|a rest IH]; [apply keeps_mret|].
  apply keeps_bind; [apply run_attribute_keeps_identity|done].
Qed.

Lemma run_display_app w l1 l2 g :
  run_display w (l1 ++ l2) g
  = match run_display w l1 g with
    | (Return _, g1) => run_display w l2 g1
    | (Raise e, g1) => (Raise e, g1)
    end.
Proof.
  revert g. induction l1 as [|a l1 IH]; intros g; [done|].
  cbn [app run_display]. unfold mbind, M_bind.
  destruct (run_attribute w a g) as [[[]|e] g1]; [apply IH|done].
Qed.

(** X8. If the collectors of the fields before a field return and the
    collector of that field raises, the loop over the fields raises the
    same exception with the globals as that collector left them: the
    fields after it are not run. *)
Theorem run_display_stops_at_first_exception (w : World)
    (before after : list str) (EachAttribute : str) (g g1 g2 : Globals)
    (e : exn) :
  run_display w before g = (Return (), g1) ->
  run_attribute w EachAttribute g1 = (Raise e, g2) ->
  run_display w (before ++ EachAttribute :: after) g = (Raise e, g2).
Proof.
  intros H1 H2. rewrite run_display_app, H1. cbn [run_display].
  unfold mbind, M_bind. by rewrite H2.
Qed.

Lemma run_display_stops_at_first_exception_witness :
  run_display darwin_without_plist [py "user"; py "sh"; py "term"]
    initial_globals
  = (Raise AttributeError,
     set_result [output_line Unknown (py "User") (py "ada")] initial_globals).
Proof.
  apply (run_display_stops_at_first_exception darwin_without_plist
           [py "user"] [py "term"] (py "sh") initial_globals
           (set_result [output_line Unknown (py "User") (py "ada")]
              initial_globals)); by vm_compute.
Defined.

(** X9. Once IdentifyTerminal has returned a name other than "Unset",
    GlobalTerminal holds that name and every later call returns it without
    changing the globals, whatever the host reports by then. *)
Theorem IdentifyTerminal_cached (w w' : World) (g g' : Globals) (name : str) :
  IdentifyTerminal w g = (Return name, g') ->
  name <> py "Unset" ->
  GlobalTerminal g' = name
  /\ IdentifyTerminal w' g' = (Return name, g').
Proof.
  unfold IdentifyTerminal, mbind, M_bind, get, lift. intros H Hname.
  assert (E : GlobalTerminal g' = name).
  { case_bool_decide as HG.
    - destruct (terminal_process_name _ _); simpl in H; [|done].
      by injection H as <- <-.
    - by injection H as <- <-. }
  split; [done|]. rewrite E. by rewrite bool_decide_eq_false_2.
Qed.

Lemma IdentifyTerminal_cached_witness :
  GlobalTerminal
    (set_GlobalTerminal (py "gnome-terminal-server") initial_globals)
  = py "gnome-terminal-server"
  /\ IdentifyTerminal darwin_without_plist
       (set_GlobalTerminal (py "gnome-terminal-server") initial_globals)
     = (Return (py "gnome-terminal-server"),
        set_GlobalTerminal (py "gnome-terminal-server") initial_globals).
Proof.
  apply (IdentifyTerminal_cached kubuntu_host darwin_without_plist
           initial_globals); [by vm_compute|by_evaluation].
Defined.

(** A lookup that raises leaves the cache unset. *)
Lemma IdentifyTerminal_raises w g e g' :
  IdentifyTerminal w g = (Raise e, g') -> g' = g.
Proof.
  unfold IdentifyTerminal, mbind, M_bind, get, lift.
  case_bool_decide; [|done].
  destruct (terminal_process_name _ _); simpl; [done|]. by intros [= _ <-].
Qed.

(** ** The desktop environment *)

Lemma match_process_lookup items processName DesktopEnvironment :
  match_process items processName DesktopEnvironment
  = default DesktopEnvironment
      ((list_to_map items : gmap str str) !! processName).
Proof.
  induction items as [|[k v] items IH]; [done|].
  cbn [match_process list_to_map foldr]. simpl.
  case_bool_decide as Hk.
  - subst k. by rewrite lookup_insert_eq.
  - by rewrite lookup_insert_ne.
Qed.

Lemma scan_passed_over procs DesktopEnvironment :
  Forall passed_over procs ->
  foldl scan_process DesktopEnvironment procs = DesktopEnvironment.
Proof.
  intros H. induction H as [|proc procs Hp _ IH]; [done|].
  cbn [foldl]. rewrite <- IH at 2. f_equal.
  destruct proc as [name|]; [|done]. cbn [scan_process passed_over] in *.
  rewrite match_process_lookup. unfold process_environment in Hp.
  by rewrite Hp.
Qed.

Lemma DesktopEvironmentID_scan w d :
  d <> MacOS ->
  getenv w (py "XDG_CURRENT_DESKTOP")
    ≫= (fun v => DesktopEnvironmentShellVarDict !! v) = None ->
  DesktopEvironmentID w d = foldl scan_process (py "None") (process_names w).
Proof.
  intros Hd He. unfold DesktopEvironmentID.
  rewrite bool_decide_eq_false_2 by done. by rewrite He.
Qed.

(** X10. Off macOS and without a recognised XDG_CURRENT_DESKTOP,
    DesktopEvironmentID returns the environment of the last process whose
    name is in DesktopEnvironmentProcessDict; processes whose name cannot
    be read and processes that are not in the table are passed over. *)
Theorem DesktopEvironmentID_last_process_decides (w : World) (d : Distro)
    (before after : list (option str)) (processName name : str) :
  d <> MacOS ->
  getenv w (py "XDG_CURRENT_DESKTOP")
    ≫= (fun v => DesktopEnvironmentShellVarDict !! v) = None ->
  process_names w = before ++ Some processName :: after ->
  process_environment processName = Some name ->
  Forall passed_over after ->
  DesktopEvironmentID w d = name.
Proof.
  intros Hd He Hp Hn Ha. rewrite DesktopEvironmentID_scan by done.
  rewrite Hp, foldl_app. cbn [foldl]. rewrite scan_passed_over by done.
  cbn [scan_process]. rewrite match_process_lookup.
  unfold process_environment in Hn. by rewrite Hn.
Qed.

Lemma DesktopEvironmentID_last_process_decides_witness :
  DesktopEvironmentID zsh_host Unknown = py "KDE".
Proof.
  apply (DesktopEvironmentID_last_process_decides zsh_host Unknown
           [Some (py "systemd"); None] [Some (py "zsh")] (py "ksmserver")).
  - by_evaluation.
  - by vm_compute.
  - by vm_compute.
  - by vm_compute.
  - repeat constructor.
Defined.

(** X11. When XDG_CURRENT_DESKTOP is set to a key of
    DesktopEnvironmentShellVarDict, DesktopEvironmentID returns the entry
    of that key without looking at the processes, except on macOS, where
    the answer is "Aqua" whatever the variable says. *)
Theorem DesktopEvironmentID_precedence (w : World) (d : Distro) (v name : str) :
  getenv w (py "XDG_CURRENT_DESKTOP") = Some v ->
  DesktopEnvironmentShellVarDict !! v = Some name ->
  DesktopEvironmentID w d = (if bool_decide (d = MacOS) then py "Aqua" else name).
Proof.
  intros Hv Hn. unfold DesktopEvironmentID. rewrite Hv. simpl. by rewrite Hn.
Qed.

Lemma DesktopEvironmentID_precedence_witness :
  DesktopEvironmentID kubuntu_host Ubuntu = py "KDE"
  /\ DesktopEvironmentID kubuntu_host MacOS = py "Aqua".
Proof.
  split.
  - apply (DesktopEvironmentID_precedence kubuntu_host Ubuntu (py "KDE"));
      by vm_compute.
  - apply (DesktopEvironmentID_precedence kubuntu_host MacOS (py "KDE")
             (py "KDE")); by vm_compute.
Defined.

(** Without a recognised variable and without a recognised process the
    answer is "None". *)
Lemma DesktopEvironmentID_None w d :
  d <> MacOS ->
  getenv w (py "XDG_CURRENT_DESKTOP")
    ≫= (fun v => DesktopEnvironmentShellVarDict !! v) = None ->
  Forall passed_over (process_names w) ->
  DesktopEvironmentID w d = py "None".
Proof.
  intros Hd He Hp. rewrite DesktopEvironmentID_scan by done.
  by apply scan_passed_over.
Qed.

Lemma KDEVersionInfo_cases w :
  if re_error w
       (py "kded" ++ default (py "4") (getenv w (py "KDE_SESSION_VERSION"))
        ++ py " ")
  then KDEVersionInfo w = Raise PatternError
  else exists rest, KDEVersionInfo w = Return (py "KDE" ++ rest).
Proof.
  unfold KDEVersionInfo, re_sub_pattern. cbv zeta.
  change (match getenv w (py "KDE_SESSION_VERSION") with
          | Some v => v
          | None => py "4"
          end)
    with (default (py "4") (getenv w (py "KDE_SESSION_VERSION"))).
  destruct (re_error w _); [done|]. cbn [mbind outcome_bind].
  repeat case_bool_decide; rewrite <- ?app_assoc; eauto; by exists [].
Qed.

Lemma GNOMEVersionInfo_prefix w :
  exists rest, GNOMEVersionInfo w = py "GNOME" ++ rest.
Proof.
  unfold GNOMEVersionInfo. cbv zeta.
  repeat case_bool_decide; rewrite <- ?app_assoc; eauto; by exists [].
Qed.

(** X12. de_display appends no line when DesktopEvironmentID returns
    "None".  Otherwise it appends exactly one line, labelled "Desktop
    Environment" (the version texts for KDE and GNOME start with "KDE" and
    "GNOME", so they never read "None"), except under KDE when the pattern
    that KDEVersionInfo builds from KDE_SESSION_VERSION does not compile:
    then it raises re.error and appends nothing. *)
Theorem de_display_line (w : World) (g : Globals) :
  if bool_decide (DesktopEvironmentID w (DistroID g) = py "None")
  then de_display w g = (Return (), g)
  else if bool_decide (DesktopEvironmentID w (DistroID g) = py "KDE")
          && re_error w
               (py "kded"
                ++ default (py "4") (getenv w (py "KDE_SESSION_VERSION"))
                ++ py " ")
  then de_display w g = (Raise PatternError, g)
  else exists value,
      de_display w g
      = (Return (),
         set_result
           (result g
              ++ [output_line (DistroID g) (py "Desktop Environment") value])
           g).
Proof.
  unfold de_display, mbind, M_bind, get, lift, mret, M_ret. cbv zeta.
  set (DE := DesktopEvironmentID w (DistroID g)).
  assert (HK : forall rest, bool_decide (py "KDE" ++ rest ≠ py "None") = true).
  { intros rest. apply bool_decide_eq_true_2. intros E.
    vm_compute in E. discriminate E. }
  assert (HG : forall rest, bool_decide (py "GNOME" ++ rest ≠ py "None") = true).
  { intros rest. apply bool_decide_eq_true_2. intros E.
    vm_compute in E. discriminate E. }
  destruct (decide (DE = py "None")) as [HN|HN].
  - rewrite HN. literal_decide. by destruct g.
  - rewrite (bool_decide_eq_false_2 (DE = py "None")) by done.
    destruct (bool_decide (DE = py "KDE")); cbn [andb].
    + pose proof (KDEVersionInfo_cases w) as H.
      destruct (re_error w _); [by rewrite H|].
      destruct H as [rest ->]. rewrite HK. by eexists.
    + destruct (bool_decide (DE = py "GNOME")).
      * destruct (GNOMEVersionInfo_prefix w) as [rest ->]. rewrite HG.
        by eexists.
      * rewrite bool_decide_eq_true_2 by done. by eexists.
Qed.

(** The run that compiles an unbalanced pattern: with
    [KDE_SESSION_VERSION] set to "5(" the collector raises. *)
Example de_display_unbalanced_pattern :
  de_display unbalanced_kde_host initial_globals
  = (Raise PatternError, initial_globals).
Proof. by vm_compute. Qed.

(** ** Packages and shell *)

(** X13. On macOS, packages_display appends its line only when both brew
    and port are installed; when either is missing it raises
    UnboundLocalError (the count of the missing package manager was never
    assigned) and appends nothing. *)
Theorem packages_display_on_MacOS (w : World) (g : Globals) :
  DistroID g = MacOS ->
  if CheckCommandInstalled w (py "brew") && CheckCommandInstalled w (py "port")
  then exists packages,
      packages_display w g
      = (Return (),
         set_result
           (result g ++ [output_line MacOS (py "Packages") packages]) g)
  else packages_display w g = (Raise UnboundLocalError, g).
Proof.
  intros HD. unfold packages_display, mbind, M_bind, get. rewrite HD.
  literal_decide. cbv zeta.
  destruct (CheckCommandInstalled w (py "brew"));
    destruct (CheckCommandInstalled w (py "port")); cbn [andb].
  - unfold lift, local, mbind, outcome_bind, mret, outcome_ret.
    destruct (0 <? CountCommandOutput w _ - 1);
      destruct (0 <? glob_count w _); cbn;
      unfold output, mbind, M_bind, get, put; rewrite HD; by eexists.
  - reflexivity.
  - unfold lift, local, mbind, outcome_bind, mret, outcome_ret.
    by destruct (0 <? CountCommandOutput w _ - 1).
  - reflexivity.
Qed.

Lemma packages_display_on_MacOS_witness :
  CheckCommandInstalled darwin_without_plist (py "brew")
  && CheckCommandInstalled darwin_without_plist (py "port") = false
  /\ packages_display darwin_without_plist
       (set_Distro MacOS None initial_globals)
     = (Raise UnboundLocalError, set_Distro MacOS None initial_globals).
Proof.
  split; [by vm_compute|].
  apply (packages_display_on_MacOS darwin_without_plist
           (set_Distro MacOS None initial_globals)).
  by vm_compute.
Defined.

(** X14. For the distributions BunsenLabs, CentOS, FreeBSD, Neon and
    Unknown, packages_display returns without appending a line: no branch
    of it names them. *)
Theorem packages_display_without_line (w : World) (g : Globals) :
  DistroID g ∈ [BunsenLabs; CentOS; FreeBSD; Neon; Unknown] ->
  packages_display w g = (Return (), g).
Proof.
  intros H. unfold packages_display, mbind, M_bind, get.
  repeat (apply elem_of_cons in H as [->|H]; [by literal_decide|]).
  by apply elem_of_nil in H.
Qed.

Lemma packages_display_without_line_witness :
  packages_display kubuntu_host (set_Distro CentOS None initial_globals)
  = (Return (), set_Distro CentOS None initial_globals).
Proof.
  apply (packages_display_without_line kubuntu_host
           (set_Distro CentOS None initial_globals)).
  by_evaluation.
Defined.

(** X15. When SHELL is set and its last path component is not "bash",
    sh_display appends one line labelled "Shell" whose value is that last
    component, which contains no slash. *)
Theorem sh_display_line (w : World) (g : Globals) (SHELL : str) :
  getenv w (py "SHELL") = Some SHELL ->
  default [] (last (split SHELL 47%N)) <> py "bash" ->
  sh_display w g
  = (Return (),
     set_result
       (result g
          ++ [output_line (DistroID g) (py "Shell")
                (default [] (last (split SHELL 47%N)))]) g)
  /\ 47%N ∉ default [] (last (split SHELL 47%N)).
Proof.
  intros Hs Hb. unfold sh_display. rewrite Hs. cbv zeta.
  rewrite bool_decide_eq_false_2 by done. split; [done|].
  destruct (last (split SHELL 47%N)) as [name|] eqn:E; [|apply not_elem_of_nil].
  apply (split_no_separator SHELL). apply last_Some in E as [l' ->].
  apply elem_of_app. right. by left.
Qed.

Lemma sh_display_line_witness :
  sh_display zsh_host initial_globals
  = (Return (),
     set_result [output_line Unknown (py "Shell") (py "zsh")] initial_globals)
  /\ 47%N ∉ py "zsh".
Proof.
  apply (sh_display_line zsh_host initial_globals (py "/bin/zsh"));
    [by vm_compute|by_evaluation].
Defined.

Lemma sh_display_without_SHELL w g :
  getenv w (py "SHELL") = None -> sh_display w g = (Raise AttributeError, g).
Proof. intros H. unfold sh_display. by rewrite H. Qed.

(** ** What [IdentifyOS] returns *)

(** X16. Whenever the raw identity is "Ubuntu" and the desktop environment
    is KDE, IdentifyOS returns the name "Kubuntu", the member Kubuntu, and
    "Ku" followed by the pretty name without its first character. *)
Theorem IdentifyOS_Kubuntu_rewrite (w : World) (d : Distro) (p : str) :
  raw_identity w = Return (py "Ubuntu", Some p) ->
  DesktopEvironmentID w d = py "KDE" ->
  IdentifyOS w d
  = Return (py "Kubuntu", Kubuntu, Some (py "Ku" ++ slice_from p 1)).
Proof.
  intros Hraw Hde. unfold IdentifyOS. rewrite Hraw.
  cbn [mbind outcome_bind]. rewrite Kubuntu_case_KDE by done.
  cbn [mbind outcome_bind].
  rewrite Raspbian_case_other by (by vm_compute). by vm_compute.
Qed.

Lemma IdentifyOS_Kubuntu_rewrite_witness :
  IdentifyOS kubuntu_host Unknown
  = Return (py "Kubuntu", Kubuntu,
            Some (py "Ku" ++ slice_from (py "Ubuntu 22.04.3 LTS x86_64") 1)).
Proof.
  apply (IdentifyOS_Kubuntu_rewrite kubuntu_host Unknown
           (py "Ubuntu 22.04.3 LTS x86_64")); by vm_compute.
Defined.

Lemma Kubuntu_case_result w d id pretty id' pretty' :
  Kubuntu_case w d id pretty = Return (id', pretty') ->
  (id' = id /\ pretty' = pretty)
  \/ (id = py "Ubuntu" /\ id' = py "Kubuntu"
      /\ exists p, pretty = Some p /\ pretty' = Some (py "Ku" ++ slice_from p 1)).
Proof.
  unfold Kubuntu_case. case_bool_decide as Hid; cbn [andb].
  - destruct (bool_decide _).
    + destruct pretty as [p|]; [|done]. intros [= <- <-]. right. eauto.
    + intros [= <- <-]. by left.
  - intros [= <- <-]. by left.
Qed.

Lemma Raspbian_case_result w id pretty id' pretty' :
  Raspbian_case w id pretty = Return (id', pretty') ->
  (id' = id /\ pretty' = pretty)
  \/ (id = py "Debian" /\ id' = py "Raspbian"
      /\ exists p, pretty = Some p
                   /\ pretty' = Some (py "Rasp" ++ slice_from p 2)).
Proof.
  unfold Raspbian_case. case_bool_decide as Hid; cbn [andb].
  - destruct (path_exists w _); [|intros [= <- <-]; by left].
    destruct (read_file w _) as [m|]; [|done].
    destruct (contains _ m); [|intros [= <- <-]; by left].
    destruct pretty as [p|]; [|done]. intros [= <- <-]. right. eauto.
  - intros [= <- <-]. by left.
Qed.

(** The steps of [IdentifyOS], when it returns. *)
Lemma IdentifyOS_inversion w d id e pretty :
  IdentifyOS w d = Return (id, e, pretty) ->
  exists id0 p0 id1 p1,
    raw_identity w = Return (id0, Some p0) /\ p0 <> []
    /\ Kubuntu_case w d id0 (Some p0) = Return (id1, Some p1) /\ p1 <> []
    /\ exists p, Raspbian_case w id1 (Some p1) = Return (id, Some p)
                 /\ p <> [] /\ pretty = Some p
                 /\ e = default Unknown (DistroEnumDict !! id).
Proof.
  unfold IdentifyOS. intros H.
  destruct (raw_identity w) as [[id0 pretty0]|] eqn:Hraw; [|done].
  destruct (raw_identity_pretty _ _ _ Hraw) as (p0 & -> & Hp0).
  cbn [mbind outcome_bind] in H.
  destruct (Kubuntu_case w d id0 (Some p0)) as [[id1 pretty1]|] eqn:HK; [|done].
  cbn [mbind outcome_bind] in H.
  destruct (Raspbian_case w id1 pretty1) as [[id2 pretty2]|] eqn:HR; [|done].
  cbn [mbind outcome_bind] in H. cbv zeta in H.
  remember (match DistroEnumDict !! id2 with Some x => x | None => Unknown end)
    as OSEnumID eqn:HE in H.
  injection H as <- <- <-.
  assert (exists p1, pretty1 = Some p1 /\ p1 <> []) as (p1 & -> & Hp1).
  { apply Kubuntu_case_result in HK as [[_ ->]|(_ & _ & p & [= <-] & ->)];
      [eauto|]. eexists. split; [done|]. by vm_compute. }
  assert (exists p2, pretty2 = Some p2 /\ p2 <> []) as (p2 & -> & Hp2).
  { apply Raspbian_case_result in HR as [[_ ->]|(_ & _ & p & [= <-] & ->)];
      [eauto|]. eexists. split; [done|]. by vm_compute. }
  exists id0, p0, id1, p1. repeat (split; [done|]).
  exists p2. repeat (split; [done|]). exact HE.
Qed.

(** X17. Whenever IdentifyOS returns, the member it returns is the entry
    of DistroEnumDict for the name it returns, or Unknown when the name is
    not a key, and the pretty name is a string (not None) that is not
    empty. *)
Theorem IdentifyOS_result (w : World) (d : Distro)
    (OSReleaseID : str) (OSEnumID : Distro) (OSReleasePretty : option str) :
  IdentifyOS w d = Return (OSReleaseID, OSEnumID, OSReleasePretty) ->
  OSEnumID = default Unknown (DistroEnumDict !! OSReleaseID)
  /\ exists p, OSReleasePretty = Some p /\ p <> [].
Proof.
  intros H. apply IdentifyOS_inversion in H
    as (? & ? & ? & ? & _ & _ & _ & _ & p & _ & Hp & -> & ->).
  eauto.
Qed.

Lemma IdentifyOS_result_witness :
  IdentifyOS raspberry_pi_host Unknown
  = Return (py "Raspbian", Raspbian,
            Some (py "Raspbian GNU/Linux 12 (bookworm) aarch64"))
  /\ Raspbian = default Unknown (DistroEnumDict !! py "Raspbian")
  /\ exists p,
       Some (py "Raspbian GNU/Linux 12 (bookworm) aarch64") = Some p /\ p <> [].
Proof.
  split; [by vm_compute|].
  apply (IdentifyOS_result raspberry_pi_host Unknown (py "Raspbian") Raspbian
           (Some (py "Raspbian GNU/Linux 12 (bookworm) aarch64"))).
  by vm_compute.
Defined.

Lemma ascii_lower_not_upper c : ascii_isupper (ascii_lower c) = false.
Proof.
  unfold ascii_isupper, ascii_lower.
  destruct ((65 <=? c) && (c <=? 90))%N eqn:E.
  - apply andb_prop in E as [E1 E2]. apply N.leb_le in E1, E2.
    apply andb_false_iff. rewrite !N.leb_gt. lia.
  - done.
Qed.

(** After [capitalize], ASCII text has no capital letter beyond the
    first character. *)
Lemma capitalize_tail w s :
  isascii s = true -> forallb (fun c => negb (ascii_isupper c)) (drop 1 (capitalize w s)) = true.
Proof.
  intros H. unfold capitalize. rewrite H. destruct s as [|c t]; [done|].
  cbn [drop]. rewrite drop_0. apply forallb_forall. intros x Hx.
  apply in_map_iff in Hx as (y & <- & _). by rewrite ascii_lower_not_upper.
Qed.

Lemma DistroEnumDict_CrunchBang id :
  DistroEnumDict !! id = Some CrunchBang -> id = py "CrunchBang".
Proof.
  intros H. apply elem_of_list_to_map_2 in H.
  repeat (apply elem_of_cons in H as [E|H]; [by simplify_eq|]).
  by apply elem_of_nil in H.
Qed.

Lemma DistroEnumDict_ManjaroARM id :
  DistroEnumDict !! id = Some ManjaroARM -> id = py "Manjaro-ARM".
Proof.
  intros H. apply elem_of_list_to_map_2 in H.
  repeat (apply elem_of_cons in H as [E|H]; [by simplify_eq|]).
  by apply elem_of_nil in H.
Qed.

Lemma DistroEnumDict_MacOS id :
  DistroEnumDict !! id = Some MacOS -> id = py "MacOS".
Proof.
  intros H. apply elem_of_list_to_map_2 in H.
  repeat (apply elem_of_cons in H as [E|H]; [by simplify_eq|]).
  by apply elem_of_nil in H.
Qed.

(** X18. On a Linux or FreeBSD host whose os-release file gives an ASCII
    ID, IdentifyOS never returns the members CrunchBang, ManjaroARM or
    MacOS: capitalize() lowers every character after the first, and the
    keys 'CrunchBang', 'Manjaro-ARM' and 'MacOS' of DistroEnumDict have
    capitals further on. *)
Theorem IdentifyOS_os_release_unreachable (w : World) (d : Distro)
    (v : str) (OSReleaseID : str) (OSEnumID : Distro)
    (OSReleasePretty : option str) :
  CheckCommandInstalled w (py "uname") = true ->
  GetCommandOutput w [py "uname"; py "-s"] ∈ [py "Linux"; py "FreeBSD"] ->
  path_exists w (py "/etc/os-release") = true ->
  dotenv_values w (py "/etc/os-release") !! py "ID" = Some (Some v) ->
  isascii v = true ->
  IdentifyOS w d = Return (OSReleaseID, OSEnumID, OSReleasePretty) ->
  OSEnumID <> CrunchBang /\ OSEnumID <> ManjaroARM /\ OSEnumID <> MacOS.
Proof.
  intros Hu Hsys He Hid Hv H.
  apply IdentifyOS_inversion in H
    as (id0 & p0 & id1 & p1 & Hraw & _ & HK & _ & p & HR & _ & _ & ->).
  assert (Hid0 : id0 = capitalize w v).
  { revert Hraw. unfold raw_identity, tag_architecture. rewrite Hu.
    unfold base_release. rewrite (bool_decide_eq_true_2 _ Hsys), He, Hid.
    rewrite bool_decide_eq_false_2.
    - cbn [mbind outcome_bind]. destruct (dotenv_values w _ !! py "PRETTY_NAME")
        as [[?|]|]; cbn; congruence.
    - intros E. rewrite E in Hsys.
      apply elem_of_cons in Hsys as [E'|Hsys];
        [vm_compute in E'; discriminate E'|].
      apply list_elem_of_singleton in Hsys. vm_compute in Hsys.
      discriminate Hsys. }
  assert (Hcases : OSReleaseID = capitalize w v
                   \/ OSReleaseID = py "Kubuntu"
                   \/ OSReleaseID = py "Raspbian").
  { apply Kubuntu_case_result in HK as [[-> _]|(_ & -> & _)];
      apply Raspbian_case_result in HR as [[-> _]|(_ & -> & _)]; subst; auto. }
  pose proof (capitalize_tail w v Hv) as Ht.
  split; [|split]; intros E.
  - destruct (DistroEnumDict !! OSReleaseID) as [x|] eqn:Hx; [|done].
    simpl in E. subst x. apply DistroEnumDict_CrunchBang in Hx. subst.
    destruct Hcases as [E|[E|E]]; [|vm_compute in E; discriminate E..].
    rewrite <- E in Ht. vm_compute in Ht. discriminate Ht.
  - destruct (DistroEnumDict !! OSReleaseID) as [x|] eqn:Hx; [|done].
    simpl in E. subst x. apply DistroEnumDict_ManjaroARM in Hx. subst.
    destruct Hcases as [E|[E|E]]; [|vm_compute in E; discriminate E..].
    rewrite <- E in Ht. vm_compute in Ht. discriminate Ht.
  - destruct (DistroEnumDict !! OSReleaseID) as [x|] eqn:Hx; [|done].
    simpl in E. subst x. apply DistroEnumDict_MacOS in Hx. subst.
    destruct Hcases as [E|[E|E]]; [|vm_compute in E; discriminate E..].
    rewrite <- E in Ht. vm_compute in Ht. discriminate Ht.
Qed.

Lemma IdentifyOS_os_release_unreachable_witness :
  IdentifyOS kubuntu_host Unknown
  = Return (py "Kubuntu", Kubuntu, Some (py "Kubuntu 22.04.3 LTS x86_64"))
  /\ Kubuntu <> CrunchBang /\ Kubuntu <> ManjaroARM /\ Kubuntu <> MacOS.
Proof.
  split; [by vm_compute|].
  apply (IdentifyOS_os_release_unreachable kubuntu_host Unknown (py "ubuntu")
           (py "Kubuntu") Kubuntu (Some (py "Kubuntu 22.04.3 LTS x86_64")));
    first [by vm_compute | by_evaluation].
Defined.

(** [find] for a one-character needle. *)
Lemma find_in_char_None s c : count s c = 0 -> find_in [c] s = None.
Proof.
  induction s as [|x s IH]; [done|]. cbn [count find_in startswith].
  pose proof (count_nonneg s c) as Hn. rewrite (N.eqb_sym c x).
  destruct (x =? c)%N; [lia|]. intros H. cbn. rewrite IH by lia. done.
Qed.

Lemma find_in_char_Some s c i :
  find_in [c] s = Some i ->
  (i < length s)%nat /\ count (drop (S i) s) c = count s c - 1.
Proof.
  revert i. induction s as [|x s IH]; intros i; [done|].
  cbn [find_in startswith count]. rewrite (N.eqb_sym c x).
  destruct (x =? c)%N; cbn.
  - intros [= <-]. rewrite drop_0. split; lia.
  - destruct (find_in [c] s) as [j|] eqn:E; [|done]. cbn. intros [= <-].
    destruct (IH j eq_refl) as [H1 H2]. split; [lia|]. rewrite H2. lia.
Qed.

Lemma find_second_dot v :
  count v 46%N <= 1 ->
  find v (py ".") (find v (py ".") 0 + 1) = -1.
Proof.
  intros H. pose proof (len_nonneg v). pose proof (count_nonneg v 46%N).
  change (py ".") with [46%N].
  assert (E0 : find v [46%N] 0
               = match find_in [46%N] v with
                 | Some i => Z.of_nat i
                 | None => -1
                 end).
  { unfold find. change (0 <? 0) with false. cbv beta iota zeta.
    destruct (Z.ltb_spec (len v) 0); [lia|].
    change (Z.to_nat 0) with O. rewrite drop_0.
    destruct (find_in _ v); [f_equal|done]. }
  rewrite E0. destruct (find_in [46%N] v) as [i|] eqn:E.
  - apply find_in_char_Some in E as [Hi Hc]. unfold find.
    destruct (Z.ltb_spec (Z.of_nat i + 1) 0); [lia|]. cbv zeta.
    destruct (Z.ltb_spec (len v) (Z.of_nat i + 1)); [done|].
    replace (Z.to_nat (Z.of_nat i + 1)) with (S i) by lia.
    pose proof (count_nonneg (drop (S i) v) 46%N).
    rewrite find_in_char_None by lia. done.
  - change (-1 + 1) with 0. by rewrite E0.
Qed.

(** X19. On Darwin, for a product version with fewer than two dots, the
    second find returns -1 and the slice drops the last character of the
    version: the name is looked up in MacOSVersion_dict under the version
    without its last character (so "10.15" is looked up as "10.1" and
    shown as "Mac OS Version 10.15"). *)
Theorem Darwin_two_part_version (w : World) (info : gmap str str) (v : str) :
  SystemVersion_plist w = Some info ->
  info !! py "ProductUserVisibleVersion" = Some v ->
  count v 46%N <= 1 ->
  base_release w (py "Darwin")
  = Return (py "MacOS",
            Some match MacOSVersion_dict !! take (length v - 1) v with
                 | Some name => name ++ py " (" ++ v ++ py ")"
                 | None => py "Mac OS Version " ++ v
                 end).
Proof.
  intros Hp Hv Hc. unfold base_release. literal_decide. rewrite Hp, Hv.
  cbv zeta. rewrite find_second_dot by done.
  unfold slice_to. cbn [Z.leb Z.compare]. unfold len.
  replace (Z.to_nat (Z.of_nat (length v) + -1)) with (length v - 1)%nat by lia.
  done.
Qed.

Lemma Darwin_two_part_version_witness :
  base_release catalina_host (py "Darwin")
  = Return (py "MacOS", Some (py "Mac OS Version 10.15"))
  /\ base_release catalina_host (py "Darwin")
     = Return (py "MacOS",
               Some match MacOSVersion_dict
                          !! take (length (py "10.15") - 1) (py "10.15") with
                    | Some name => name ++ py " (" ++ py "10.15" ++ py ")"
                    | None => py "Mac OS Version " ++ py "10.15"
                    end).
Proof.
  split; [by vm_compute|].
  apply (Darwin_two_part_version catalina_host
           (list_to_map [(py "ProductUserVisibleVersion", py "10.15")])
           (py "10.15")); [reflexivity|by vm_compute|by vm_compute].
Defined.

(** ** Disk sizes *)

Lemma round_to_float_exact n : 0 <= n < 2 ^ 53 -> round_to_float n = n.
Proof.
  intros H. unfold round_to_float.
  destruct (Z.leb_spec (Z.log2 n + 1) 53) as [_|Hb]; [done|].
  assert (n = 0 \/ 0 < n) as [->|Hpos] by lia; [done|].
  pose proof (Z.log2_lt_pow2 n 53 Hpos) as [Hl _]. lia.
Qed.

Lemma int_truediv_pow2_exact n k :
  0 <= n < 2 ^ 53 -> 0 <= k -> int_truediv_pow2 n k = Return (n / 2 ^ k).
Proof.
  intros Hn Hk. unfold int_truediv_pow2. rewrite round_to_float_exact by done.
  rewrite Z.shiftr_div_pow2 by done.
  destruct (Z.leb_spec (2 ^ (1024 + k)) n) as [Hbig|_]; [|done].
  assert (2 ^ 53 <= 2 ^ (1024 + k)) by (apply Z.pow_le_mono_r; lia). lia.
Qed.

(** X20. For a size of 0 up to 2^53 - 1 kilobytes, ConvertDiskSize returns
    the size divided by 1, 2^10, 2^20 or 2^30 and rounded down, followed
    by K, M, G or T; the number shown is below 1024 for sizes below 2^40
    and at least 1 for sizes from 1024. *)
Theorem ConvertDiskSize_rounds_down (DiskSize : Z) :
  0 <= DiskSize < 2 ^ 53 ->
  exists (q k : Z) (unit : string),
    ConvertDiskSize DiskSize = Return (str_of_int q ++ py unit)
    /\ (k, unit) ∈ [(0, "K"); (10, "M"); (20, "G"); (30, "T")]%string
    /\ q * 2 ^ k <= DiskSize < (q + 1) * 2 ^ k
    /\ (DiskSize < 2 ^ 40 -> q < 1024)
    /\ (1024 <= DiskSize -> 1 <= q).
Proof.
  intros H. unfold ConvertDiskSize. cbv zeta.
  change (1024 * 1024 * 1024) with (2 ^ 30).
  change (1024 * 1024) with (2 ^ 20). change 1024 with (2 ^ 10) at 1 2.
  destruct (Z.ltb_spec DiskSize (2 ^ 10)) as [H0|H0].
  { exists DiskSize, 0, "K"%string. split; [done|].
    split; [repeat constructor|]. lia. }
  destruct (Z.ltb_spec DiskSize (2 ^ 20)) as [H1|H1].
  { rewrite int_truediv_pow2_exact by lia. cbn [mbind outcome_bind].
    exists (DiskSize / 2 ^ 10), 10, "M"%string. split; [done|].
    split; [repeat constructor|].
    pose proof (Z.div_mod DiskSize (2 ^ 10) ltac:(lia)).
    pose proof (Z.mod_pos_bound DiskSize (2 ^ 10) ltac:(lia)).
    assert (DiskSize / 2 ^ 10 < 2 ^ 10)
      by (apply Z.div_lt_upper_bound; lia).
    assert (1 <= DiskSize / 2 ^ 10)
      by (apply Z.div_le_lower_bound; lia). lia. }
  destruct (Z.ltb_spec DiskSize (2 ^ 30)) as [H2|H2].
  { rewrite int_truediv_pow2_exact by lia. cbn [mbind outcome_bind].
    exists (DiskSize / 2 ^ 20), 20, "G"%string. split; [done|].
    split; [repeat constructor|].
    pose proof (Z.div_mod DiskSize (2 ^ 20) ltac:(lia)).
    pose proof (Z.mod_pos_bound DiskSize (2 ^ 20) ltac:(lia)).
    assert (DiskSize / 2 ^ 20 < 2 ^ 10)
      by (apply Z.div_lt_upper_bound; lia).
    assert (1 <= DiskSize / 2 ^ 20)
      by (apply Z.div_le_lower_bound; lia). lia. }
  rewrite int_truediv_pow2_exact by lia. cbn [mbind outcome_bind].
  exists (DiskSize / 2 ^ 30), 30, "T"%string. split; [done|].
  split; [repeat constructor|].
  pose proof (Z.div_mod DiskSize (2 ^ 30) ltac:(lia)).
  pose proof (Z.mod_pos_bound DiskSize (2 ^ 30) ltac:(lia)).
  assert (1 <= DiskSize / 2 ^ 30) by (apply Z.div_le_lower_bound; lia).
  split; [lia|]. split; [|lia]. intros Hs.
  apply Z.div_lt_upper_bound; lia.
Qed.

Lemma ConvertDiskSize_rounds_down_witness :
  ConvertDiskSize 245366784 = Return (py "234G")
  /\ exists (q k : Z) (unit : string),
       ConvertDiskSize 245366784 = Return (str_of_int q ++ py unit)
       /\ (k, unit) ∈ [(0, "K"); (10, "M"); (20, "G"); (30, "T")]%string
       /\ q * 2 ^ k <= 245366784 < (q + 1) * 2 ^ k
       /\ (245366784 < 2 ^ 40 -> q < 1024)
       /\ (1024 <= 245366784 -> 1 <= q).
Proof.
  split; [by vm_compute|].
  apply (ConvertDiskSize_rounds_down 245366784). lia.
Defined.

(** ** The graphics adapter on FreeBSD *)

Example FreeBSDGetGPUInfo_example :
  FreeBSDGetGPUInfo pciconf_host = py "Intel Corporation HD Graphics 620".
Proof. by vm_compute. Qed.

(** X21. FreeBSDGetGPUInfo never returns the empty string, whatever
    pciconf prints. *)
Theorem FreeBSDGetGPUInfo_not_empty (w : World) :
  0 < len (FreeBSDGetGPUInfo w).
Proof.
  unfold FreeBSDGetGPUInfo. cbv zeta.
  destruct (_ <? 3); [by vm_compute|].
  destruct (foldl _ _ _) as [GPUDevice GPUVendor].
  case_bool_decide as HV; cbn [andb].
  - case_bool_decide as HD; [by vm_compute|].
    destruct GPUDevice; [done|]. rewrite len_cons.
    pose proof (len_nonneg GPUDevice). lia.
  - destruct GPUVendor; [done|]. cbn [app]. rewrite len_cons.
    pose proof (len_nonneg (GPUVendor ++ py " " ++ GPUDevice)). lia.
Qed.

(** Without [pciconf] there is nothing to look through. *)
Lemma FreeBSDGetGPUInfo_without_pciconf w :
  CheckCommandInstalled w (py "pciconf") = false ->
  FreeBSDGetGPUInfo w = py "No Display Information Found".
Proof.
  intros H. unfold FreeBSDGetGPUInfo, GetCommandOutputList.
  change (default [] (head [py "pciconf"; py "-lv"])) with (py "pciconf").
  by rewrite H.
Qed.

(** ** The Pi model *)

Lemma startswith_app a b s : startswith (a ++ b) s = true -> startswith a s = true.
Proof.
  revert s. induction a as [|x a IH]; intros s; [by destruct s|].
  destruct s as [|y s]; [done|]. cbn [app startswith].
  intros [-> H]%andb_prop. cbn. by apply IH.
Qed.

Lemma contains_app a b s : contains (a ++ b) s = true -> contains a s = true.
Proof.
  induction s as [|y s IH]; cbn [contains].
  - rewrite !orb_false_r. apply startswith_app.
  - intros [H|H]%orb_prop; apply orb_true_iff.
    + left. by eapply startswith_app.
    + right. by apply IH.
Qed.

(** X22. Whenever the device-tree model file exists and contains
    "Raspberry Pi" (the condition under which IdentifyOS reclassifies
    Debian as Raspbian), pimodel_display appends the line labelled "Pi
    Model" with the content of the file. *)
Theorem pimodel_display_on_Raspbian (w : World) (g : Globals) (ModelInfo : str) :
  path_exists w (py "/proc/device-tree/model") = true ->
  read_file w (py "/proc/device-tree/model") = Some ModelInfo ->
  contains (py "Raspberry Pi") ModelInfo = true ->
  pimodel_display w g
  = (Return (),
     set_result
       (result g ++ [output_line (DistroID g) (py "Pi Model") ModelInfo]) g).
Proof.
  intros He Hr Hc. unfold pimodel_display. cbv zeta. rewrite He, Hr.
  change (py "Raspberry Pi") with (py "Raspberry" ++ py " Pi") in Hc.
  by rewrite (contains_app _ _ _ Hc).
Qed.

Lemma pimodel_display_on_Raspbian_witness :
  pimodel_display raspberry_pi_host initial_globals
  = (Return (),
     set_result
       (result initial_globals
          ++ [output_line (DistroID initial_globals) (py "Pi Model")
                (py "Raspberry Pi 4 Model B Rev 1.4")])
       initial_globals).
Proof.
  apply (pimodel_display_on_Raspbian raspberry_pi_host initial_globals
           (py "Raspberry Pi 4 Model B Rev 1.4")); by vm_compute.
Defined.

(** ** The whole run, whatever the host *)

(** X23. When IdentifyRowsColumns returns at most 70 columns, what the
    program prints (or the exception it raises) depends neither on the
    table of logos nor on the command-line arguments. *)
Theorem main_on_narrow_terminal (w : World)
    (DefineDistroLogo DefineDistroLogo' : Distro -> list str)
    (argv argv' : list str) (g : Globals) (ConsoleRows ConsoleColumns : Z) :
  IdentifyRowsColumns w = Return (ConsoleRows, ConsoleColumns) ->
  ConsoleColumns <= 70 ->
  (main w DefineDistroLogo argv g).1 = (main w DefineDistroLogo' argv' g).1.
Proof.
  intros Hrc Hc. unfold main, mbind, M_bind, get, put, lift. rewrite Hrc.
  destruct (IdentifyOS w (DistroID g)) as [[[id e] pretty]|]; [|done].
  destruct (run_display w display _) as [[[]|] g1]; [|done].
  unfold ArcheyOutputList, TerminalColumns.
  destruct (Z.ltb_spec (ConsoleColumns - 1) 70); [|lia].
  destruct argv as [|? [|? [|]]]; destruct argv' as [|? [|? [|]]]; done.
Qed.

Lemma main_on_narrow_terminal_witness :
  (main narrow_host (fun _ => Ubuntu_logo) [py "archey"] initial_globals).1
  = (main narrow_host (fun _ => []) [py "archey"; py "Arch"] initial_globals).1.
Proof.
  apply (main_on_narrow_terminal narrow_host (fun _ => Ubuntu_logo)
           (fun _ => []) [py "archey"] [py "archey"; py "Arch"]
           initial_globals 24 60); [by vm_compute|lia].
Defined.

(** X24. Whenever the program runs to its end, it prints an empty line,
    then the lines of the output list, each cut by the print loop, then an
    empty line, where the output list is built for TerminalColumns (the
    columns that IdentifyRowsColumns returns, minus one) from the result
    list as it was, followed by at most one line per display field,
    followed by the two colour bars; afterwards result holds these lines,
    padded with empty strings to the height of the logo when the logo was
    merged. *)
Theorem main_output_lines (w : World) (DefineDistroLogo : Distro -> list str)
    (argv : list str) (g g' : Globals) (lines : list str) :
  main w DefineDistroLogo argv g = (Return lines, g') ->
  exists (ConsoleRows ConsoleColumns : Z) (collected : list str),
    IdentifyRowsColumns w = Return (ConsoleRows, ConsoleColumns)
    /\ (length collected <= length display)%nat
    /\ lines
       = [] :: (printed (ConsoleColumns - 1)
                  <$> ArcheyOutputList (ConsoleColumns - 1)
                        (DefineDistroLogo (DistroID g'))
                        (result g ++ collected ++ colour_bars))
            ++ [[]]
    /\ result g'
       = (result g ++ collected ++ colour_bars)
         ++ (if ConsoleColumns - 1 <? 70 then []
             else replicate
                    (length (DefineDistroLogo (DistroID g'))
                     - length (result g ++ collected ++ colour_bars))%nat []).
Proof.
  unfold main, mbind, M_bind, get, put, lift.
  destruct (IdentifyOS w (DistroID g)) as [[[id e] pretty]|]; [|done].
  destruct (IdentifyRowsColumns w) as [[rows cols]|]; [|done].
  destruct (run_display_appends w display (set_Distro e pretty g))
    as (collected & Hres & Hlen).
  destruct (run_display w display _) as [[[]|] g1]; [|done].
  cbn [snd] in Hres. cbn [result set_Distro] in Hres.
  unfold TerminalColumns. intros H. exists rows, cols, collected.
  split; [done|]. split; [done|]. revert H.
  destruct argv as [|a0 [|a1 [|a2 argv]]]; cbv beta iota zeta.
  3: generalize (DistroEnumDict !! a1); intros o.
  all: generalize (cols - 1 <? 70); intros b.
  all: destruct b.
  all: intros H; injection H as <- <-.
  all: cbn [result DistroID set_result set_Distro snd].
  all: rewrite ?equalize_eq, Hres, <- !app_assoc; cbn [snd].
  all: rewrite ?app_nil_r.
  all: done.
Qed.

(** On 60 columns the seventeen lines of [result] are printed between the
    two empty lines; on 80 columns the twenty lines of the logo are, each
    with its line of [result] beside it. *)
Lemma main_output_lines_witness :
  length (printed_lines (example_run narrow_host)) = 19%nat
  /\ length (printed_lines (example_run kubuntu_host)) = 22%nat
  /\ (exists (ConsoleRows ConsoleColumns : Z) (collected : list str),
        IdentifyRowsColumns narrow_host = Return (ConsoleRows, ConsoleColumns)
        /\ (length collected <= length display)%nat
        /\ printed_lines (example_run narrow_host)
           = [] :: (printed (ConsoleColumns - 1)
                      <$> ArcheyOutputList (ConsoleColumns - 1) Ubuntu_logo
                            (result initial_globals ++ collected
                             ++ colour_bars))
                ++ [[]]
        /\ result (example_run narrow_host).2
           = (result initial_globals ++ collected ++ colour_bars)
             ++ (if ConsoleColumns - 1 <? 70 then []
                 else replicate
                        (length Ubuntu_logo
                         - length (result initial_globals ++ collected
                                   ++ colour_bars))%nat []))
  /\ (exists (ConsoleRows ConsoleColumns : Z) (collected : list str),
        IdentifyRowsColumns kubuntu_host = Return (ConsoleRows, ConsoleColumns)
        /\ (length collected <= length display)%nat
        /\ printed_lines (example_run kubuntu_host)
           = [] :: (printed (ConsoleColumns - 1)
                      <$> ArcheyOutputList (ConsoleColumns - 1) Ubuntu_logo
                            (result initial_globals ++ collected
                             ++ colour_bars))
                ++ [[]]
        /\ result (example_run kubuntu_host).2
           = (result initial_globals ++ collected ++ colour_bars)
             ++ (if ConsoleColumns - 1 <? 70 then []
                 else replicate
                        (length Ubuntu_logo
                         - length (result initial_globals ++ collected
                                   ++ colour_bars))%nat [])).
Proof.
  split; [by vm_compute|]. split; [by vm_compute|]. split.
  - apply (main_output_lines narrow_host (fun _ => Ubuntu_logo) [py "archey"]
             initial_globals (example_run narrow_host).2
             (printed_lines (example_run narrow_host))).
    by vm_compute.
  - apply (main_output_lines kubuntu_host (fun _ => Ubuntu_logo) [py "archey"]
             initial_globals (example_run kubuntu_host).2
             (printed_lines (example_run kubuntu_host))).
    by vm_compute.
Defined.
